(** * Flight route dashboard: the filter / aggregate / present pipeline of [app.py]

    The script loads a table of flight routes, filters it by the user's
    year and route-type selections, aggregates the filtered rows with
    pandas group-bys and hands the aggregates to charting and mapping
    libraries.  The development below embeds the pandas expressions as
    list functions, the Streamlit script as a program in a small
    output-and-exception monad, and states the properties of the
    pipeline over that embedding. *)

From Stdlib Require Import List ZArith QArith Bool Lia String Ascii.
From Stdlib Require Import Permutation Sorted.
Import ListNotations.

Local Open Scope string_scope.
Local Open Scope list_scope.
Local Open Scope Z_scope.

(** ** Data model *)

(** One record of the dataset.  [Type_] is the source's [Type] column.
    [Passengers] is an integer count, summed here without the
    wrap-around of a 64-bit column (2^63 passengers away); coordinates
    are finite numbers, held as rationals (every finite binary64 value
    is one; the pipeline compares them and averages them for the map's
    midpoints). *)
Record Row := mkRow {
  Route : string;
  From : string;
  To : string;
  From_Country : string;
  Year : Z;
  Type_ : string;
  Passengers : Z;
  From_Lat : Q;
  From_Lon : Q;
  To_Lat : Q;
  To_Lon : Q
}.

(** A DataFrame of route records: its rows in index order. *)
Definition DataFrame := list Row.

(** ** Filter engine *)

(** [Series.isin(values)] on an integer column and on a string column. *)
Definition isin_Z (values : list Z) (x : Z) : bool :=
  existsb (Z.eqb x) values.

Definition isin_str (values : list string) (x : string) : bool :=
  existsb (String.eqb x) values.

(** [df[df["Year"].isin(selected_year) & df["Type"].isin(selected_type)]] *)
Definition filtered_df (df : DataFrame)
    (selected_year : list Z) (selected_type : list string) : DataFrame :=
  filter (fun r => isin_Z selected_year (Year r) && isin_str selected_type (Type_ r)) df.

(** ** Key metrics *)

(** [filtered_df["Passengers"].sum()] *)
Definition total_passengers (fdf : DataFrame) : Z :=
  fold_left Z.add (map Passengers fdf) 0.

(** [len(filtered_df)] *)
Definition total_routes (fdf : DataFrame) : nat :=
  List.length fdf.

(** ** Group-by aggregation *)

(** pandas orders the groups of a [groupby] by key.  [KeyCmp] is the
    three-way comparison of a key type: integers and floats numerically,
    strings by code point, tuples lexicographically. *)
Class KeyCmp (K : Type) := key_cmp : K -> K -> comparison.

#[global] Instance Z_KeyCmp : KeyCmp Z := Z.compare.
#[global] Instance string_KeyCmp : KeyCmp string := String.compare.
#[global] Instance Q_KeyCmp : KeyCmp Q := Qcompare.
#[global] Instance pair_KeyCmp {A B : Type} `{KeyCmp A} `{KeyCmp B} : KeyCmp (A * B) :=
  fun x y =>
    match key_cmp (fst x) (fst y) with
    | Eq => key_cmp (snd x) (snd y)
    | c => c
    end.

(** Two keys fall in the same group when they compare equal. *)
Definition same_key {K : Type} `{KeyCmp K} (k k' : K) : bool :=
  match key_cmp k k' with Eq => true | _ => false end.

Section GroupBy.
Context {A K : Type} `{KeyCmp K}.
Variable key : A -> K.
Variable val : A -> Z.

(** Add one observation to the groups seen so far, kept in key order. *)
Fixpoint add_group (k : K) (v : Z) (gs : list (K * Z)) : list (K * Z) :=
  match gs with
  | [] => [(k, v)]
  | (k', v') :: tl =>
      match key_cmp k k' with
      | Eq => (k', v' + v) :: tl
      | Lt => (k, v) :: gs
      | Gt => (k', v') :: add_group k v tl
      end
  end.

(** [rows.groupby(key)[val].sum()]: one entry per group, in key order. *)
Definition groupby_sum (rows : list A) : list (K * Z) :=
  fold_left (fun gs r => add_group (key r) (val r) gs) rows [].

(** The sum of [val] over the rows whose key falls in the group of [k]. *)
Definition group_total (k : K) (rows : list A) : Z :=
  fold_right Z.add 0 (map val (filter (fun r => same_key (key r) k) rows)).
End GroupBy.

(** ** Exceptions *)

Inductive exn : Type :=
| ValueError (msg : string)
| ZeroDivisionError (msg : string)
| OtherError (msg : string).

(** [Series.idxmax()]: the label of the first maximal entry; raises on an
    empty series. *)
Fixpoint idxmax_from {K : Type} (best : K * Z) (s : list (K * Z)) : K :=
  match s with
  | [] => fst best
  | (k, v) :: tl => if snd best <? v then idxmax_from (k, v) tl else idxmax_from best tl
  end.

Definition idxmax {K : Type} (s : list (K * Z)) : exn + K :=
  match s with
  | [] => inl (ValueError "attempt to get argmax of an empty sequence")
  | g :: tl => inr (idxmax_from g tl)
  end.

(** [filtered_df.groupby("From_Country")["Passengers"].sum().idxmax()] *)
Definition top_country (fdf : DataFrame) : exn + string :=
  idxmax (groupby_sum From_Country Passengers fdf).

(** [filtered_df.groupby("Year")["Passengers"].sum().reset_index()] *)
Definition yearly_passengers (fdf : DataFrame) : list (Z * Z) :=
  groupby_sum Year Passengers fdf.

(** ** Sorting by a numeric column *)

Section SortValues.
Context {A : Type}.
Variable col : A -> Z.

Fixpoint insert_asc (x : A) (l : list A) : list A :=
  match l with
  | [] => [x]
  | y :: tl => if col x <=? col y then x :: l else y :: insert_asc x tl
  end.

Fixpoint sort_asc (l : list A) : list A :=
  match l with
  | [] => []
  | x :: tl => insert_asc x (sort_asc tl)
  end.

(** [sort_values(col, ascending=False)].  pandas reverses the rows,
    argsorts ascending and reverses the outcome.  The order of rows
    with equal values depends on the sort kind; the stable one is
    taken here. *)
Definition sort_values_desc (l : list A) : list A :=
  rev (sort_asc (rev l)).
End SortValues.

(** [head(n)] *)
Definition head {A : Type} (n : nat) (l : list A) : list A := firstn n l.

(** ** Top departure countries by route type *)

(** A cell of a numeric table; [None] is NaN. *)
Definition cell := option Z.

(** A table indexed by country: each row is its index label and its
    cells by column label, in column order. *)
Definition Frame := list (string * list (string * cell)).

(** [Series.unique()]: distinct values in order of first appearance. *)
Fixpoint unique_str (l : list string) : list string :=
  match l with
  | [] => []
  | x :: tl => x :: filter (fun y => negb (String.eqb y x)) (unique_str tl)
  end.

Fixpoint unique_Z (l : list Z) : list Z :=
  match l with
  | [] => []
  | x :: tl => x :: filter (fun y => negb (Z.eqb y x)) (unique_Z tl)
  end.

(** Insertion sort of labels, ascending. *)
Fixpoint insert_label {K : Type} `{KeyCmp K} (x : K) (l : list K) : list K :=
  match l with
  | [] => [x]
  | y :: tl =>
      match key_cmp x y with
      | Gt => y :: insert_label x tl
      | _ => x :: l
      end
  end.

Fixpoint sorted {K : Type} `{KeyCmp K} (l : list K) : list K :=
  match l with
  | [] => []
  | x :: tl => insert_label x (sorted tl)
  end.

(** The entry of a series at a label pair, if the series has one. *)
Fixpoint series_get (s : list (string * string * Z)) (c t : string) : cell :=
  match s with
  | [] => None
  | (c', t', v) :: tl =>
      if String.eqb c' c && String.eqb t' t then Some v else series_get tl c t
  end.

(** [Series.unstack()] of a series indexed by (country, type): the
    countries become the index, the types the columns, both in label
    order; a pair the series lacks is NaN. *)
Definition unstack (s : list (string * string * Z)) : Frame :=
  let index := sorted (unique_str (map (fun e => fst (fst e)) s)) in
  let columns := sorted (unique_str (map (fun e => snd (fst e)) s)) in
  map (fun c => (c, map (fun t => (t, series_get s c t)) columns)) index.

(** [fillna(0)] *)
Definition fillna (v : Z) (f : Frame) : Frame :=
  map (fun row =>
         (fst row,
          map (fun e => (fst e, match snd e with None => Some v | x => x end)) (snd row)))
      f.

(** [sum(axis=1)] of one row; NaN cells are skipped. *)
Definition row_sum (cells : list (string * cell)) : Z :=
  fold_right Z.add 0 (map (fun e => match snd e with Some v => v | None => 0 end) cells).

(** [row[name] = v]: an existing column of that name is overwritten,
    otherwise the column is appended. *)
Fixpoint set_cell (name : string) (v : cell) (cells : list (string * cell))
    : list (string * cell) :=
  match cells with
  | [] => [(name, v)]
  | (n, x) :: tl =>
      if String.eqb n name then (n, v) :: tl else (n, x) :: set_cell name v tl
  end.

(** [row[name]] *)
Fixpoint get_cell (name : string) (cells : list (string * cell)) : cell :=
  match cells with
  | [] => None
  | (n, x) :: tl => if String.eqb n name then x else get_cell name tl
  end.

(** [frame["Total"] = frame.sum(axis=1)] *)
Definition with_total (f : Frame) : Frame :=
  map (fun row => (fst row, set_cell "Total" (Some (row_sum (snd row))) (snd row))) f.

(** The value the frame is ranked by: its "Total" column. *)
Definition total_of (row : string * list (string * cell)) : Z :=
  match get_cell "Total" (snd row) with Some v => v | None => 0 end.

(** [drop(columns=name)] *)
Definition drop_column (name : string) (f : Frame) : Frame :=
  map (fun row => (fst row, filter (fun e => negb (String.eqb (fst e) name)) (snd row))) f.

(** The pivot table of line 101: passengers summed per
    (From_Country, Type), types as columns, missing pairs zero-filled. *)
Definition country_type_pivot (fdf : DataFrame) : Frame :=
  fillna 0 (unstack (groupby_sum (fun r => (From_Country r, Type_ r)) Passengers fdf)).

(** Lines 101-103. *)
Definition top_departure_countries (fdf : DataFrame) : Frame :=
  drop_column "Total"
    (head 5 (sort_values_desc total_of (with_total (country_type_pivot fdf)))).

(** ** Busiest routes *)

(** The grouping key of a route: name, endpoints and the four coordinates. *)
Definition RouteKey : Type := string * string * string * Q * Q * Q * Q.

Definition route_key (r : Row) : RouteKey :=
  (Route r, From r, To r, From_Lat r, From_Lon r, To_Lat r, To_Lon r).

(** [filtered_df.groupby([...7 columns...])["Passengers"].sum().reset_index()] *)
Definition route_data (fdf : DataFrame) : list (RouteKey * Z) :=
  groupby_sum route_key Passengers fdf.

(** [route_data.sort_values("Passengers", ascending=False).head(10)] *)
Definition top_routes (fdf : DataFrame) : list (RouteKey * Z) :=
  head 10 (sort_values_desc snd (route_data fdf)).

(** The groups [head(10)] leaves out. *)
Definition excluded_routes (fdf : DataFrame) : list (RouteKey * Z) :=
  skipn 10 (sort_values_desc snd (route_data fdf)).

(** ** Route map: line thickness and midpoints *)

(** Python's built-in [max] over the values of a column. *)
Definition py_max (l : list Z) : exn + Z :=
  match l with
  | [] => inl (ValueError "max() arg is an empty sequence")
  | x :: tl => inr (fold_left Z.max tl x)
  end.

(** Line 181:
    [2 + passenger_count / max(top_routes["Passengers"]) * 5
       if not top_routes["Passengers"].empty else 2].
    Both operands of [/] are Python integers, so a zero maximum raises.
    The value is the exact one of the expression; the source computes
    it in binary64, whose result is this value rounded, so statements
    below are limited to what rounding preserves (equalities of values
    that binary64 holds exactly, and non-strict bounds and orderings). *)
Definition line_weight (top_passengers : list Z) (passenger_count : Z) : exn + Q :=
  match top_passengers with
  | _ :: _ =>
      match py_max top_passengers with
      | inl e => inl e
      | inr m =>
          if m =? 0 then inl (ZeroDivisionError "division by zero")
          else inr (2 + inject_Z passenger_count / inject_Z m * 5)%Q
      end
  | [] => inr 2%Q
  end.

(** What the map draws for one route. *)
Record MapRoute := mkMapRoute {
  mr_route : string;
  mr_start : Q * Q;
  mr_end : Q * Q;
  mr_passengers : Z;
  mr_weight : Q;
  mr_midpoint : Q * Q
}.

(** The body of the loop of lines 177-226 for one row of [top_routes]. *)
Definition map_route (top : list (RouteKey * Z)) (row : RouteKey * Z) : exn + MapRoute :=
  let '(route, _, _, from_lat, from_lon, to_lat, to_lon, passenger_count) := row in
  match line_weight (map snd top) passenger_count with
  | inl e => inl e
  | inr w =>
      inr (mkMapRoute route (from_lat, from_lon) (to_lat, to_lon) passenger_count w
             ((from_lat + to_lat) / 2, (from_lon + to_lon) / 2)%Q)
  end.

(** ** The Streamlit script *)

Inductive metric_value : Type :=
| IntValue (z : Z)
| CountValue (n : nat)
| TextValue (s : string).

(** The elements a run puts on the page, in order. *)
Inductive element : Type :=
| Title (text : string)
| Markdown (text : string)
| Success (text : string)
| Warning (text : string) (cause : exn)
| Error (text : string) (cause : option exn)
| SidebarHeader (text : string)
| Multiselect (label : string)
| Header (text : string)
| Metric (label : string) (value : metric_value)
| DataTable (rows : DataFrame)
| LinePlot (data : list (Z * Z))
| BarPlot (data : Frame)
| Table (rows : list (string * Z))
| FoliumMap (routes : list MapRoute).

(** A script computation: it appends to the page and either returns or
    raises. *)
Definition M (A : Type) : Type := list element -> list element * (exn + A).

Definition ret {A : Type} (a : A) : M A := fun page => (page, inr a).

Definition bind {A B : Type} (m : M A) (f : A -> M B) : M B :=
  fun page =>
    match m page with
    | (page', inl e) => (page', inl e)
    | (page', inr a) => f a page'
    end.

Definition emit (e : element) : M unit := fun page => (page ++ [e], inr tt).

Definition raise {A : Type} (e : exn) : M A := fun page => (page, inl e).

Definition lift {A : Type} (r : exn + A) : M A := fun page => (page, r).

(** [try: body / except Exception as e: handler(e)]: what the body put
    on the page before raising stays there. *)
Definition try_except {A : Type} (body : M A) (handler : exn -> M A) : M A :=
  fun page =>
    match body page with
    | (page', inl e) => handler e page'
    | r => r
    end.

Declare Scope script_scope.
Delimit Scope script_scope with script.
Notation "x <- c1 ;; c2" := (bind c1 (fun x => c2))
  (at level 61, c1 at next level, right associativity) : script_scope.
Notation "c1 ;; c2" := (bind c1 (fun _ => c2))
  (at level 61, right associativity) : script_scope.
Local Open Scope script_scope.

Fixpoint for_each {A B : Type} (f : A -> M B) (l : list A) : M (list B) :=
  match l with
  | [] => ret []
  | x :: tl => y <- f x ;; ys <- for_each f tl ;; ret (y :: ys)
  end.

(** The outcome of each data source on this run. *)
Record DataSources := mkSources {
  mongo : exn + DataFrame;   (* lines 26-30: connect, query, close *)
  csv_exists : bool;         (* [os.path.exists("busist_flight.csv.csv")] *)
  read_csv : exn + DataFrame (* [pd.read_csv], when the file exists *)
}.

(** What the user has chosen in each multiselect; [None] is an untouched
    widget, which holds its default. *)
Record Selection := mkSelection {
  years : option (list Z);
  types : option (list string)
}.

(** The visuals drawn by external collaborators, and the exception, if
    any, that drawing one raises on this run. *)
Inductive visual : Type := LineChart | BarChart | RankedTable | RouteMap.

Definition Collaborators := visual -> option exn.

Definition draw (ext : Collaborators) (v : visual) : M unit :=
  match ext v with
  | Some e => raise e
  | None => ret tt
  end.

(** Lines 23-42.  Every loaded frame is taken to carry the columns of
    [Row]; the storage identifier [_id] is not among them, so the drop
    of lines 49-50 has nothing to remove. *)
Definition load_data (src : DataSources) : M (option DataFrame) :=
  try_except
    (data <- lift (mongo src) ;;
     emit (Success "Data loaded from MongoDB") ;;
     ret (Some data))
    (fun e =>
       emit (Warning "Could not connect to MongoDB: " e) ;;
       if csv_exists src then
         data <- lift (read_csv src) ;;
         emit (Success "Data loaded from CSV") ;;
         ret (Some data)
       else
         emit (Error "No data source available. Please ensure MongoDB is running or provide a CSV file." None) ;;
         ret None).

(** Lines 63-70. *)
Definition key_metrics (fdf : DataFrame) : M unit :=
  emit (Header "Key Metrics") ;;
  let total_passengers := total_passengers fdf in
  let total_routes := total_routes fdf in
  top_country <- lift (top_country fdf) ;;
  emit (Metric "Total Passengers" (IntValue total_passengers)) ;;
  emit (Metric "Total Routes" (CountValue total_routes)) ;;
  emit (Metric "Top Origin Country" (TextValue top_country)).

(** Lines 73-74. *)
Definition data_table (fdf : DataFrame) : M unit :=
  emit (Header "Flight Routes Data") ;;
  emit (DataTable fdf).

(** Lines 81-96. *)
Definition passenger_trends (ext : Collaborators) (fdf : DataFrame) : M unit :=
  emit (Header "Passenger Trends by Year") ;;
  let yearly_passengers := yearly_passengers fdf in
  draw ext LineChart ;;
  emit (LinePlot yearly_passengers).

(** Lines 99-131. *)
Definition departure_countries (ext : Collaborators) (fdf : DataFrame) : M unit :=
  emit (Header "Top 5 Departure Countries by Route Type") ;;
  try_except
    (let top_departure_countries := top_departure_countries fdf in
     draw ext BarChart ;;
     emit (BarPlot top_departure_countries))
    (fun e => emit (Error "Error rendering departure countries chart: " (Some e))).

(** Lines 134-137. *)
Definition busiest_routes (ext : Collaborators) (fdf : DataFrame) : M unit :=
  emit (Header "Top 10 Busiest Routes") ;;
  let top_routes := top_routes fdf in
  draw ext RankedTable ;;
  emit (Table (map (fun g => (let '(route, _, _, _, _, _, _) := fst g in route, snd g))
                   top_routes)).

(** Lines 140-257.  The collaborator is taken to fail, if it does, at
    the final drawing call. *)
Definition route_map (ext : Collaborators) (fdf : DataFrame) : M unit :=
  emit (Header "Interactive Flight Routes Map") ;;
  try_except
    (let top_routes := top_routes fdf in
     routes <- for_each (fun row => lift (map_route top_routes row)) top_routes ;;
     draw ext RouteMap ;;
     emit (FoliumMap routes))
    (fun e => emit (Error "Error rendering map: " (Some e))).

(** Lines 54-57: the options of the two multiselects and what each
    returns: the user's choice, or all options of an untouched widget. *)
Definition year_options (df : DataFrame) : list Z := sorted (unique_Z (map Year df)).

Definition route_type_options (df : DataFrame) : list string := unique_str (map Type_ df).

Definition selected_year (sel : Selection) (df : DataFrame) : list Z :=
  match years sel with Some ys => ys | None => year_options df end.

Definition selected_type (sel : Selection) (df : DataFrame) : list string :=
  match types sel with Some ts => ts | None => route_type_options df end.

(** Lines 48-257: the branch taken when a frame was loaded. *)
Definition dashboard (ext : Collaborators) (sel : Selection) (df : DataFrame) : M unit :=
  emit (SidebarHeader "Filter Options") ;;
  emit (Multiselect "Select Year(s)") ;;
  emit (Multiselect "Select Route Type(s)") ;;
  let filtered_df := filtered_df df (selected_year sel df) (selected_type sel df) in
  key_metrics filtered_df ;;
  data_table filtered_df ;;
  passenger_trends ext filtered_df ;;
  departure_countries ext filtered_df ;;
  busiest_routes ext filtered_df ;;
  route_map ext filtered_df.

(** Lines 15-19: the title and the description shown before loading. *)
Definition title_text : string := "✈️ Global Flight Route Analysis".

Definition description_text : string := "
Flight Route Analysis app presents an analysis of the busiest passenger flight routes scraped from Wikipedia. 
Explore the data, visualize passenger trends, and interact with a global map of the top routes.
".

(** The whole script. *)
Definition app (src : DataSources) (ext : Collaborators) (sel : Selection) : M unit :=
  emit (Title title_text) ;;
  emit (Markdown description_text) ;;
  df <- load_data src ;;
  match df with
  | Some df => dashboard ext sel df
  | None => emit (Error "Unable to load data for visualization." None)
  end.

(** One run of the script on an empty page: what the script put on the
    page, and the exception that ended the run, if one escaped every
    handler of the script (Streamlit then stops the run and reports the
    exception itself). *)
Definition run (src : DataSources) (ext : Collaborators) (sel : Selection)
    : list element * (exn + unit) :=
  app src ext sel [].

(** Page observations. *)
Definition is_error (e : element) : bool :=
  match e with Error _ _ => true | _ => false end.

Definition is_visual (e : element) : bool :=
  match e with
  | Metric _ _ | DataTable _ | LinePlot _ | BarPlot _ | Table _ | FoliumMap _ => true
  | _ => false
  end.

Definition error_count (page : list element) : nat :=
  List.length (filter is_error page).

(** ** Example data *)

(** Three records: two of 2020 and type A with 10 and 20 passengers,
    one of 2021 and type B with 5. *)
Definition sample_df : DataFrame :=
  [ mkRow "Seoul-Jeju" "Seoul" "Jeju" "South Korea" 2020 "A" 10
      (375 # 10) (1268 # 10) (335 # 10) (1265 # 10);
    mkRow "Tokyo-Sapporo" "Tokyo" "Sapporo" "Japan" 2020 "A" 20
      (355 # 10) (1398 # 10) (428 # 10) (1417 # 10);
    mkRow "Dubai-London" "Dubai" "London" "United Arab Emirates" 2021 "B" 5
      (253 # 10) (554 # 10) (515 # 10) (-(5 # 10)) ].

(** A run environment: the database is down, the file may be there. *)
Definition mongo_down : exn := OtherError "localhost:27017: connection refused".

(** Collaborators that draw everything. *)
Definition all_drawn : Collaborators := fun _ => None.

(** ** Vocabulary of the statements *)

(** What the group-by lemmas need of a comparison: it is a total order
    up to the equivalence of comparing equal. *)
Class KeyOrder (K : Type) `{KeyCmp K} : Prop := {
  key_cmp_refl : forall x, key_cmp x x = Eq;
  key_cmp_antisym : forall x y, key_cmp y x = CompOpp (key_cmp x y);
  key_cmp_trans : forall c x y z, key_cmp x y = c -> key_cmp y z = c -> key_cmp x z = c;
  key_cmp_eq_l : forall x y z, key_cmp x y = Eq -> key_cmp x z = key_cmp y z
}.

(** The sum of the entries of a series whose label falls in the group of [k]. *)
Definition entries_total {K : Type} `{KeyCmp K} (k : K) (gs : list (K * Z)) : Z :=
  fold_right Z.add 0 (map snd (filter (fun g => same_key (fst g) k) gs)).

(** A series whose labels strictly increase. *)
Definition ascending {K : Type} `{KeyCmp K} (gs : list (K * Z)) : Prop :=
  StronglySorted (fun a b => key_cmp (fst a) (fst b) = Lt) gs.

(** Rows whose column [col] never increases from one row to the next. *)
Definition non_increasing {A : Type} (col : A -> Z) (l : list A) : Prop :=
  StronglySorted (fun a b => col b <= col a) l.

(** Labels that strictly increase. *)
Definition labels_ascending {K : Type} `{KeyCmp K} (l : list K) : Prop :=
  StronglySorted (fun a b => key_cmp a b = Lt) l.

(** The sum of Passengers over the rows of one (country, type) pair. *)
Definition pair_total (c t : string) (fdf : DataFrame) : Z :=
  total_passengers
    (filter (fun r => String.eqb (From_Country r) c && String.eqb (Type_ r) t) fdf).

(** The sum of a country's pair sums over the given type columns: what
    the cells of the country's pivot row add up to. *)
Definition cells_total (columns : list string) (c : string) (fdf : DataFrame) : Z :=
  fold_right Z.add 0 (map (fun t => pair_total c t fdf) columns).

(** The total of one row of a table over all its columns. *)
Definition row_total (row : string * list (string * cell)) : Z := row_sum (snd row).

(** What every run shows first (lines 15-19). *)
Definition page_head : list element := [Title title_text; Markdown description_text].

(** The message of [idxmax] on an empty series. *)
Definition empty_argmax : exn := ValueError "attempt to get argmax of an empty sequence".

(** The sum of the values of a series. *)
Definition series_sum {K : Type} (s : list (K * Z)) : Z :=
  fold_right Z.add 0 (map snd s).

(** The sum of Passengers over the rows of one country. *)
Definition country_total (c : string) (fdf : DataFrame) : Z :=
  total_passengers (filter (fun r => String.eqb (From_Country r) c) fdf).

(** What the loop of lines 177-226 draws for one row when the largest
    Passengers of the top routes is [m]. *)
Definition drawn_route (m : Z) (row : RouteKey * Z) : MapRoute :=
  let '(route, _, _, from_lat, from_lon, to_lat, to_lon, passenger_count) := row in
  mkMapRoute route (from_lat, from_lon) (to_lat, to_lon) passenger_count
    (2 + inject_Z passenger_count / inject_Z m * 5)%Q
    ((from_lat + to_lat) / 2, (from_lon + to_lon) / 2)%Q.

(** The rows a run works on: the dataset filtered by what the two
    multiselects return (line 60). *)
Definition selected_rows (sel : Selection) (df : DataFrame) : DataFrame :=
  filtered_df df (selected_year sel df) (selected_type sel df).

(** The rows of the ranked table (line 137): route name and Passengers. *)
Definition ranked_rows (fdf : DataFrame) : list (string * Z) :=
  map (fun g => (let '(route, _, _, _, _, _, _) := fst g in route, snd g)) (top_routes fdf).

(** What a failing collaborator raises in the examples. *)
Definition draw_error : exn := OtherError "cannot draw".

(** Collaborators of which one fails. *)
Definition only_fails (v : visual) (e : exn) : Collaborators :=
  fun v' =>
    match v, v' with
    | LineChart, LineChart | BarChart, BarChart
    | RankedTable, RankedTable | RouteMap, RouteMap => Some e
    | _, _ => None
    end.

(** Two routes nobody flew. *)
Definition idle_df : DataFrame :=
  [ mkRow "Oslo-Bergen" "Oslo" "Bergen" "Norway" 2020 "A" 0
      (599 # 10) (107 # 10) (603 # 10) (53 # 10);
    mkRow "Lima-Cusco" "Lima" "Cusco" "Peru" 2021 "B" 0
      (-(120 # 10)) (-(770 # 10)) (-(135 # 10)) (-(719 # 10)) ].

(** * Properties *)

(** ** Laws of the key orders *)

Lemma key_cmp_eq_sym {K : Type} `{KeyOrder K} (x y : K) :
  key_cmp x y = Eq -> key_cmp y x = Eq.
Proof.
  intros E. rewrite key_cmp_antisym, E. reflexivity.
Qed.

Lemma key_cmp_eq_r {K : Type} `{KeyOrder K} (x y z : K) :
  key_cmp y z = Eq -> key_cmp x y = key_cmp x z.
Proof.
  intros E.
  rewrite (key_cmp_antisym y x), (key_cmp_antisym z x).
  f_equal. apply key_cmp_eq_l. exact E.
Qed.

#[global] Instance Z_KeyOrder : KeyOrder Z.
Proof.
  split; unfold key_cmp, Z_KeyCmp.
  - apply Z.compare_refl.
  - intros x y. apply Z.compare_antisym.
  - intros c x y z; destruct c;
      rewrite ?Z.compare_eq_iff, ?Z.compare_lt_iff, ?Z.compare_gt_iff; lia.
  - intros x y z E. apply Z.compare_eq_iff in E. now subst.
Qed.

Lemma string_compare_trans (c : comparison) (x y z : string) :
  String.compare x y = c -> String.compare y z = c -> String.compare x z = c.
Proof.
  revert y z.
  induction x as [|a x IH]; intros [|b y] [|d z]; simpl; try congruence.
  unfold Ascii.compare.
  destruct (N.compare_spec (N_of_ascii a) (N_of_ascii b)) as [E1|L1|G1];
    destruct (N.compare_spec (N_of_ascii b) (N_of_ascii d)) as [E2|L2|G2];
    try congruence; intros H1 H2.
  - rewrite E1, E2, N.compare_refl. now apply IH with y.
  - rewrite E1. apply N.compare_lt_iff in L2. now rewrite L2.
  - rewrite E1. apply N.compare_gt_iff in G2. now rewrite G2.
  - rewrite <- E2. apply N.compare_lt_iff in L1. now rewrite L1.
  - assert (L : (N_of_ascii a < N_of_ascii d)%N) by lia.
    apply N.compare_lt_iff in L. now rewrite L.
  - rewrite <- E2. apply N.compare_gt_iff in G1. now rewrite G1.
  - assert (L : (N_of_ascii d < N_of_ascii a)%N) by lia.
    apply N.compare_gt_iff in L. now rewrite L.
Qed.

Lemma string_compare_refl (x : string) : String.compare x x = Eq.
Proof.
  induction x as [|a x IH]; simpl; [reflexivity|].
  unfold Ascii.compare. now rewrite N.compare_refl.
Qed.

#[global] Instance string_KeyOrder : KeyOrder string.
Proof.
  split; unfold key_cmp, string_KeyCmp.
  - apply string_compare_refl.
  - intros x y. apply String.compare_antisym.
  - apply string_compare_trans.
  - intros x y z E. apply String.compare_eq_iff in E. now subst.
Qed.

#[global] Instance Q_KeyOrder : KeyOrder Q.
Proof.
  split; unfold key_cmp, Q_KeyCmp.
  - intros x. apply Qeq_alt. reflexivity.
  - intros x y. symmetry. apply Qcompare_antisym.
  - intros c x y z; destruct c; rewrite <- ?Qeq_alt, <- ?Qlt_alt, <- ?Qgt_alt.
    + apply Qeq_trans.
    + apply Qlt_trans.
    + intros A B. now apply Qlt_trans with y.
  - intros x y z E. apply Qeq_alt in E. now rewrite E.
Qed.

#[global] Instance pair_KeyOrder {A B : Type} `{KeyOrder A} `{KeyOrder B} : KeyOrder (A * B).
Proof.
  split; unfold key_cmp, pair_KeyCmp.
  - intros [a b]; simpl. now rewrite !key_cmp_refl.
  - intros [a b] [a' b']; simpl.
    rewrite (key_cmp_antisym a a'), (key_cmp_antisym b b').
    now destruct (key_cmp a a').
  - intros c [a1 b1] [a2 b2] [a3 b3]; simpl.
    destruct (key_cmp a1 a2) eqn:E1.
    + rewrite (key_cmp_eq_l a1 a2 a3 E1).
      destruct (key_cmp a2 a3); try congruence.
      apply key_cmp_trans.
    + intros <-. destruct (key_cmp a2 a3) eqn:E2; intros E3.
      * now rewrite <- (key_cmp_eq_r a1 a2 a3 E2), E1.
      * now rewrite (key_cmp_trans Lt a1 a2 a3 E1 E2).
      * discriminate.
    + intros <-. destruct (key_cmp a2 a3) eqn:E2; intros E3.
      * now rewrite <- (key_cmp_eq_r a1 a2 a3 E2), E1.
      * discriminate.
      * now rewrite (key_cmp_trans Gt a1 a2 a3 E1 E2).
  - intros [a1 b1] [a2 b2] [a3 b3]; simpl.
    destruct (key_cmp a1 a2) eqn:E1; try discriminate.
    intros E2. rewrite (key_cmp_eq_l a1 a2 a3 E1), (key_cmp_eq_l b1 b2 b3 E2).
    reflexivity.
Qed.

(** ** Group-by: one entry per group, in key order, holding the group's sum *)

Section GroupByFacts.
Context {A K : Type} `{KeyOrder K}.
Variable key : A -> K.
Variable val : A -> Z.

Lemma same_key_true (k k' : K) : same_key k k' = true <-> key_cmp k k' = Eq.
Proof.
  unfold same_key. destruct (key_cmp k k'); split; congruence.
Qed.

Lemma same_key_refl (k : K) : same_key k k = true.
Proof.
  apply same_key_true, key_cmp_refl.
Qed.

Lemma same_key_lt (k k' : K) : key_cmp k k' = Lt -> same_key k k' = false /\ same_key k' k = false.
Proof.
  intros E. unfold same_key. rewrite (key_cmp_antisym k k'), E. now split.
Qed.

Lemma add_group_total (k0 : K) (v : Z) (gs : list (K * Z)) (k : K) :
  entries_total k (add_group k0 v gs)
  = entries_total k gs + (if same_key k0 k then v else 0).
Proof.
  unfold entries_total.
  induction gs as [|[k' v'] tl IH]; simpl.
  - destruct (same_key k0 k); simpl; lia.
  - destruct (key_cmp k0 k') eqn:E; simpl.
    + assert (S : same_key k0 k = same_key k' k)
        by (unfold same_key; now rewrite (key_cmp_eq_l k0 k' k E)).
      rewrite S. destruct (same_key k' k); simpl; lia.
    + destruct (same_key k0 k), (same_key k' k); simpl; lia.
    + destruct (same_key k' k); simpl; rewrite IH; lia.
Qed.

Lemma fold_add_group_total (rows : list A) (gs : list (K * Z)) (k : K) :
  entries_total k (fold_left (fun gs r => add_group (key r) (val r) gs) rows gs)
  = entries_total k gs + group_total key val k rows.
Proof.
  revert gs.
  induction rows as [|r rows IH]; intros gs; simpl.
  - unfold group_total; simpl; lia.
  - rewrite IH, add_group_total. unfold group_total; simpl.
    destruct (same_key (key r) k); simpl; lia.
Qed.

Lemma add_group_labels (k0 : K) (v : Z) (gs : list (K * Z)) (k : K) :
  In k (map fst (add_group k0 v gs)) -> k = k0 \/ In k (map fst gs).
Proof.
  induction gs as [|[k' v'] tl IH]; simpl.
  - intuition.
  - destruct (key_cmp k0 k'); simpl; intuition.
Qed.

Lemma add_group_keeps (k0 : K) (v : Z) (gs : list (K * Z)) (k : K) :
  In k (map fst gs) -> In k (map fst (add_group k0 v gs)).
Proof.
  induction gs as [|[k' v'] tl IH]; simpl.
  - intuition.
  - destruct (key_cmp k0 k'); simpl; intuition.
Qed.

Lemma add_group_covers (k0 : K) (v : Z) (gs : list (K * Z)) :
  exists k, In k (map fst (add_group k0 v gs)) /\ key_cmp k0 k = Eq.
Proof.
  induction gs as [|[k' v'] tl IH]; simpl.
  - exists k0. split; [now left | apply key_cmp_refl].
  - destruct (key_cmp k0 k') eqn:E; simpl.
    + exists k'. now split; [left|].
    + exists k0. split; [now left | apply key_cmp_refl].
    + destruct IH as (k & I & E'). exists k. now split; [right|].
Qed.

Lemma add_group_ascending (k0 : K) (v : Z) (gs : list (K * Z)) :
  ascending gs -> ascending (add_group k0 v gs).
Proof.
  unfold ascending.
  induction 1 as [|[k' v'] tl S IH F]; simpl.
  - repeat constructor.
  - destruct (key_cmp k0 k') eqn:E.
    + constructor; [exact S | exact F].
    + constructor; [now constructor|].
      constructor; [exact E|].
      rewrite Forall_forall in F |- *. intros g I; simpl.
      apply (key_cmp_trans Lt k0 k' (fst g) E). now apply F.
    + constructor; [exact IH|].
      rewrite Forall_forall in F |- *. intros g I; simpl.
      destruct (add_group_labels k0 v tl (fst g) (in_map fst _ _ I)) as [-> | I'].
      * rewrite key_cmp_antisym, E. reflexivity.
      * apply in_map_iff in I'. destruct I' as (g' & <- & I'). now apply F.
Qed.

Lemma ascending_entry_total (gs : list (K * Z)) (k : K) (v : Z) :
  ascending gs -> In (k, v) gs -> entries_total k gs = v.
Proof.
  unfold ascending, entries_total.
  induction 1 as [|[k' v'] tl S IH F]; simpl; [tauto|].
  intros [E | I].
  - injection E as -> ->. rewrite same_key_refl; simpl.
    assert (N : filter (fun g => same_key (fst g) k) tl = []).
    { clear IH S. induction tl as [|g tl IH]; [reflexivity|]; simpl.
      inversion F as [|? ? L F']; subst.
      simpl in L. destruct (same_key_lt _ _ L) as [_ ->]. now apply IH. }
    rewrite N; simpl; lia.
  - rewrite Forall_forall in F. specialize (F _ I); simpl in F.
    destruct (same_key_lt _ _ F) as [-> _]. now apply IH.
Qed.

Lemma fold_add_group_ascending (rows : list A) (gs : list (K * Z)) :
  ascending gs ->
  ascending (fold_left (fun gs r => add_group (key r) (val r) gs) rows gs).
Proof.
  revert gs. induction rows as [|r rows IH]; intros gs S; simpl; [exact S|].
  apply IH, add_group_ascending, S.
Qed.

Lemma fold_add_group_labels (rows : list A) (gs : list (K * Z)) (k : K) :
  In k (map fst (fold_left (fun gs r => add_group (key r) (val r) gs) rows gs)) ->
  In k (map fst gs) \/ In k (map key rows).
Proof.
  revert gs. induction rows as [|r rows IH]; intros gs; simpl; [tauto|].
  intros I. destruct (IH _ I) as [I' | I']; [|tauto].
  destruct (add_group_labels _ _ _ _ I') as [-> | I'']; tauto.
Qed.

Lemma fold_add_group_keeps (rows : list A) (gs : list (K * Z)) (k : K) :
  In k (map fst gs) ->
  In k (map fst (fold_left (fun gs r => add_group (key r) (val r) gs) rows gs)).
Proof.
  revert gs. induction rows as [|r rows IH]; intros gs I; simpl; [exact I|].
  apply IH, add_group_keeps, I.
Qed.

Lemma fold_add_group_covers (rows : list A) (gs : list (K * Z)) (r : A) :
  In r rows ->
  exists k,
    In k (map fst (fold_left (fun gs r => add_group (key r) (val r) gs) rows gs))
    /\ key_cmp (key r) k = Eq.
Proof.
  revert gs. induction rows as [|r' rows IH]; intros gs; simpl; [tauto|].
  intros [-> | I].
  - destruct (add_group_covers (key r) (val r) gs) as (k & I & E).
    exists k. split; [now apply fold_add_group_keeps | exact E].
  - now apply IH.
Qed.

(** The three facts every use of [groupby_sum] below rests on. *)
Lemma groupby_sum_ascending (rows : list A) : ascending (groupby_sum key val rows).
Proof.
  apply fold_add_group_ascending. constructor.
Qed.

Lemma groupby_sum_entry (rows : list A) (k : K) (v : Z) :
  In (k, v) (groupby_sum key val rows) ->
  v = group_total key val k rows /\ In k (map key rows).
Proof.
  intros I. split.
  - rewrite <- (ascending_entry_total _ k v (groupby_sum_ascending rows) I).
    unfold groupby_sum. rewrite fold_add_group_total. reflexivity.
  - destruct (fold_add_group_labels rows [] k (in_map fst _ _ I)) as [[] | I'].
    exact I'.
Qed.

Lemma groupby_sum_covers (rows : list A) (r : A) :
  In r rows ->
  exists k v, In (k, v) (groupby_sum key val rows) /\ key_cmp (key r) k = Eq.
Proof.
  intros I. destruct (fold_add_group_covers rows [] r I) as (k & I' & E).
  apply in_map_iff in I'. destruct I' as ([k' v] & <- & I').
  now exists k', v.
Qed.
End GroupByFacts.

(** ** Sorting: a descending rearrangement, and what [head] keeps of it *)

Section SortedLists.
Context {A : Type}.

Lemma StronglySorted_snoc (R : A -> A -> Prop) (l : list A) (x : A) :
  StronglySorted R l -> Forall (fun a => R a x) l -> StronglySorted R (l ++ [x]).
Proof.
  induction 1 as [|a l S IH F]; intros G; simpl.
  - repeat constructor.
  - inversion G as [|? ? Rax G']; subst.
    constructor; [now apply IH|].
    apply Forall_app. split; [exact F | now constructor].
Qed.

Lemma StronglySorted_rev (R : A -> A -> Prop) (l : list A) :
  StronglySorted R l -> StronglySorted (fun a b => R b a) (rev l).
Proof.
  induction 1 as [|a l S IH F]; simpl; [constructor|].
  apply StronglySorted_snoc; [exact IH|].
  apply Forall_rev. exact F.
Qed.

Lemma StronglySorted_split (R : A -> A -> Prop) (l1 l2 : list A) :
  StronglySorted R (l1 ++ l2) ->
  StronglySorted R l1 /\ forall a b, In a l1 -> In b l2 -> R a b.
Proof.
  induction l1 as [|x l1 IH]; simpl; intros S.
  - split; [constructor | tauto].
  - inversion S as [|? ? S' F]; subst.
    destruct (IH S') as [S1 C].
    apply Forall_app in F. destruct F as [F1 F2].
    split; [now constructor|].
    intros a b [<- | I] J; [|now apply C].
    rewrite Forall_forall in F2. now apply F2.
Qed.
End SortedLists.

Section SortFacts.
Context {A : Type}.
Variable col : A -> Z.

Lemma insert_asc_perm (x : A) (l : list A) : Permutation (insert_asc col x l) (x :: l).
Proof.
  induction l as [|y l IH]; simpl; [reflexivity|].
  destruct (col x <=? col y); [reflexivity|].
  rewrite IH. apply perm_swap.
Qed.

Lemma sort_asc_perm (l : list A) : Permutation (sort_asc col l) l.
Proof.
  induction l as [|x l IH]; simpl; [reflexivity|].
  rewrite insert_asc_perm. now constructor.
Qed.

Lemma insert_asc_sorted (x : A) (l : list A) :
  StronglySorted (fun a b => col a <= col b) l ->
  StronglySorted (fun a b => col a <= col b) (insert_asc col x l).
Proof.
  induction 1 as [|y l S IH F]; simpl.
  - repeat constructor.
  - destruct (col x <=? col y) eqn:E.
    + apply Z.leb_le in E.
      constructor; [now constructor|].
      constructor; [exact E|].
      eapply Forall_impl; [|exact F]. simpl; intros; lia.
    + apply Z.leb_gt in E.
      constructor; [exact IH|].
      rewrite Forall_forall in F |- *. intros z I.
      apply (Permutation_in _ (insert_asc_perm x l)) in I.
      destruct I as [<- | I]; [lia | now apply F].
Qed.

Lemma sort_asc_sorted (l : list A) :
  StronglySorted (fun a b => col a <= col b) (sort_asc col l).
Proof.
  induction l as [|x l IH]; simpl; [constructor|].
  now apply insert_asc_sorted.
Qed.

Lemma sort_values_desc_perm (l : list A) : Permutation (sort_values_desc col l) l.
Proof.
  unfold sort_values_desc.
  rewrite <- Permutation_rev, sort_asc_perm, <- Permutation_rev. reflexivity.
Qed.

Lemma sort_values_desc_sorted (l : list A) : non_increasing col (sort_values_desc col l).
Proof.
  unfold sort_values_desc, non_increasing.
  apply (StronglySorted_rev (fun a b => col a <= col b)), sort_asc_sorted.
Qed.

(** Whatever rearrangement the sort produces, as long as it is
    non-increasing: the first [n] rows are non-increasing, they are at
    most [n], together with the rest they are the input, and none of
    them is below a row that was left out. *)
Lemma head_of_non_increasing (n : nat) (s : list A) :
  non_increasing col s ->
  non_increasing col (head n s)
  /\ (List.length (head n s) <= n)%nat
  /\ head n s ++ skipn n s = s
  /\ forall x y, In x (head n s) -> In y (skipn n s) -> col y <= col x.
Proof.
  unfold head, non_increasing. intros S.
  rewrite <- (firstn_skipn n s) in S.
  destruct (StronglySorted_split _ _ _ S) as [S1 C].
  repeat split.
  - exact S1.
  - apply firstn_le_length.
  - apply firstn_skipn.
  - exact C.
Qed.
End SortFacts.

(** ** Filter engine *)

Lemma isin_Z_In (values : list Z) (x : Z) : isin_Z values x = true <-> In x values.
Proof.
  unfold isin_Z. rewrite existsb_exists. split.
  - intros (y & I & E). apply Z.eqb_eq in E. now subst.
  - intros I. exists x. split; [exact I | apply Z.eqb_refl].
Qed.

Lemma isin_str_In (values : list string) (x : string) :
  isin_str values x = true <-> In x values.
Proof.
  unfold isin_str. rewrite existsb_exists. split.
  - intros (y & I & E). apply String.eqb_eq in E. now subst.
  - intros I. exists x. split; [exact I | apply String.eqb_refl].
Qed.

Lemma filter_length_le {A : Type} (p : A -> bool) (l : list A) :
  (List.length (filter p l) <= List.length l)%nat.
Proof.
  induction l as [|x l IH]; simpl; [lia|].
  destruct (p x); simpl; lia.
Qed.

(** C1.  The filter keeps exactly the rows of the dataset whose Year is
    one of the selected years and whose Type is one of the selected
    types: every returned row is a row of the dataset (the result is no
    longer than the dataset, its rows are among the dataset's) and meets
    both conditions, and every row meeting both is returned. *)
Theorem filtered_df_spec (df : DataFrame) (selected_year : list Z)
    (selected_type : list string) :
  incl (filtered_df df selected_year selected_type) df
  /\ (List.length (filtered_df df selected_year selected_type) <= List.length df)%nat
  /\ forall r,
       In r (filtered_df df selected_year selected_type)
       <-> In r df /\ In (Year r) selected_year /\ In (Type_ r) selected_type.
Proof.
  unfold filtered_df. split; [|split].
  - intros r I. apply filter_In in I. tauto.
  - apply filter_length_le.
  - intros r. rewrite filter_In, andb_true_iff, isin_Z_In, isin_str_In. tauto.
Qed.

Lemma filtered_df_no_year (df : DataFrame) (selected_type : list string) :
  filtered_df df [] selected_type = [].
Proof.
  unfold filtered_df.
  induction df as [|r df IH]; simpl; [reflexivity | exact IH].
Qed.

Lemma filtered_df_no_type (df : DataFrame) (selected_year : list Z) :
  filtered_df df selected_year [] = [].
Proof.
  unfold filtered_df.
  induction df as [|r df IH]; simpl; [reflexivity|].
  rewrite andb_false_r. exact IH.
Qed.

(** C8.  An empty selection in either dimension empties the result,
    whatever is selected in the other dimension. *)
Theorem filtered_df_empty_selection (df : DataFrame) (selected_year : list Z)
    (selected_type : list string) :
  filtered_df df [] selected_type = []
  /\ filtered_df df selected_year [] = [].
Proof.
  split; [apply filtered_df_no_year | apply filtered_df_no_type].
Qed.

(** ** Key metrics on an empty filter result *)

(** C10.  When the filter result is empty, the total passenger count is
    0 and the route count is 0; both are plain values of total
    functions, so no error can arise in computing them. *)
Theorem empty_filter_totals (df : DataFrame) (selected_year : list Z)
    (selected_type : list string) :
  filtered_df df selected_year selected_type = [] ->
  total_passengers (filtered_df df selected_year selected_type) = 0
  /\ total_routes (filtered_df df selected_year selected_type) = 0%nat.
Proof.
  intros ->. split; reflexivity.
Qed.


(** ** Yearly trend *)

Lemma total_passengers_fold_right (fdf : DataFrame) :
  total_passengers fdf = fold_right Z.add 0 (map Passengers fdf).
Proof.
  unfold total_passengers.
  assert (G : forall l a, fold_left Z.add l a = a + fold_right Z.add 0 l).
  { induction l as [|x l IH]; intros a; simpl; [lia|]. rewrite IH. lia. }
  rewrite G. lia.
Qed.

Lemma StronglySorted_map {A B : Type} (R : B -> B -> Prop) (f : A -> B) (l : list A) :
  StronglySorted (fun a b => R (f a) (f b)) l -> StronglySorted R (map f l).
Proof.
  induction 1 as [|a l S IH F]; simpl; constructor.
  - exact IH.
  - apply Forall_map. exact F.
Qed.

Lemma StronglySorted_lt_NoDup (l : list Z) : StronglySorted Z.lt l -> NoDup l.
Proof.
  induction 1 as [|a l S IH F]; constructor.
  - intros I. rewrite Forall_forall in F. specialize (F a I). lia.
  - exact IH.
Qed.

Lemma year_group_total (y : Z) (fdf : DataFrame) :
  group_total Year Passengers y fdf
  = total_passengers (filter (fun r => Year r =? y) fdf).
Proof.
  rewrite total_passengers_fold_right. unfold group_total.
  do 2 f_equal. apply filter_ext. intros r.
  unfold same_key, key_cmp, Z_KeyCmp.
  destruct (Z.compare_spec (Year r) y) as [E|L|G].
  - symmetry. now apply Z.eqb_eq.
  - symmetry. apply Z.eqb_neq. lia.
  - symmetry. apply Z.eqb_neq. lia.
Qed.

(** C9.  The yearly trend lists (Year, summed Passengers) pairs in
    strictly increasing Year order, with one entry for each Year that
    occurs among the filtered rows and for no other, and the Passengers
    of an entry is the sum of Passengers over the filtered rows of that
    Year. *)
Theorem yearly_passengers_spec (fdf : DataFrame) :
  StronglySorted Z.lt (map fst (yearly_passengers fdf))
  /\ NoDup (map fst (yearly_passengers fdf))
  /\ (forall y, In y (map fst (yearly_passengers fdf)) <-> In y (map Year fdf))
  /\ (forall y p, In (y, p) (yearly_passengers fdf) ->
                  p = total_passengers (filter (fun r => Year r =? y) fdf)).
Proof.
  unfold yearly_passengers.
  assert (S : StronglySorted Z.lt (map fst (groupby_sum Year Passengers fdf))).
  { apply StronglySorted_map. exact (groupby_sum_ascending Year Passengers fdf). }
  split; [exact S|]. split; [now apply StronglySorted_lt_NoDup|]. split.
  - intros y. split.
    + intros I. apply in_map_iff in I. destruct I as ([y' p] & <- & I).
      apply (groupby_sum_entry Year Passengers fdf y' p I).
    + intros I. apply in_map_iff in I. destruct I as (r & <- & I).
      destruct (groupby_sum_covers Year Passengers fdf r I) as (k & v & J & E).
      apply Z.compare_eq_iff in E. rewrite E.
      apply (in_map fst _ _ J).
  - intros y p I.
    rewrite <- year_group_total.
    apply (groupby_sum_entry Year Passengers fdf y p I).
Qed.

(** ** Busiest routes *)

(** C5.  The busiest-routes table is built from the groups of the
    filtered rows by (Route, From, To and the four coordinates), one
    group per key, each holding the sum of its rows' Passengers; it is
    sorted by Passengers in non-increasing order, has at most 10 rows,
    is together with the rows left out a rearrangement of all groups,
    and no row in it has fewer Passengers than a row left out. *)
Theorem top_routes_spec (fdf : DataFrame) :
  non_increasing snd (top_routes fdf)
  /\ (List.length (top_routes fdf) <= 10)%nat
  /\ Permutation (route_data fdf) (top_routes fdf ++ excluded_routes fdf)
  /\ (forall x y, In x (top_routes fdf) -> In y (excluded_routes fdf) -> snd y <= snd x)
  /\ ascending (route_data fdf)
  /\ (forall k v, In (k, v) (route_data fdf) ->
                  v = group_total route_key Passengers k fdf /\ In k (map route_key fdf))
  /\ (forall r, In r fdf ->
                exists k v, In (k, v) (route_data fdf) /\ same_key (route_key r) k = true).
Proof.
  unfold top_routes, excluded_routes.
  destruct (head_of_non_increasing snd 10 _ (sort_values_desc_sorted snd (route_data fdf)))
    as (S & L & E & C).
  split; [exact S|]. split; [exact L|]. split; [|split; [exact C|]].
  - rewrite E. symmetry. apply sort_values_desc_perm.
  - unfold route_data. split; [apply groupby_sum_ascending|]. split.
    + intros k v I. exact (groupby_sum_entry route_key Passengers fdf k v I).
    + intros r I.
      destruct (groupby_sum_covers route_key Passengers fdf r I) as (k & v & J & Q).
      exists k, v. split; [exact J|]. now apply same_key_true.
Qed.

(** ** Labels: distinct values and their sorted order *)

Lemma unique_str_In (l : list string) (x : string) : In x (unique_str l) <-> In x l.
Proof.
  induction l as [|y l IH]; simpl; [tauto|].
  rewrite filter_In, IH, negb_true_iff, String.eqb_neq.
  destruct (String.eqb_spec x y) as [E|N]; intuition congruence.
Qed.

Lemma unique_str_NoDup (l : list string) : NoDup (unique_str l).
Proof.
  induction l as [|y l IH]; simpl; constructor.
  - rewrite filter_In, String.eqb_refl. simpl. intuition discriminate.
  - now apply NoDup_filter.
Qed.

Section SortedLabels.
Context {K : Type} `{KeyOrder K}.
Hypothesis key_cmp_eq : forall x y : K, key_cmp x y = Eq -> x = y.

Lemma insert_label_In (x y : K) (l : list K) :
  In y (insert_label x l) <-> y = x \/ In y l.
Proof.
  induction l as [|z l IH]; simpl; [intuition|].
  destruct (key_cmp x z); simpl; rewrite ?IH; intuition.
Qed.

Lemma sorted_In (y : K) (l : list K) : In y (sorted l) <-> In y l.
Proof.
  induction l as [|x l IH]; simpl; [tauto|].
  rewrite insert_label_In, IH. intuition.
Qed.

Lemma insert_label_ascending (x : K) (l : list K) :
  labels_ascending l -> ~ In x l -> labels_ascending (insert_label x l).
Proof.
  unfold labels_ascending.
  induction 1 as [|y l S IH F]; simpl; intros N.
  - repeat constructor.
  - destruct (key_cmp x y) eqn:E.
    + apply key_cmp_eq in E. subst. simpl in N. tauto.
    + constructor; [now constructor|].
      constructor; [exact E|].
      rewrite Forall_forall in F |- *. intros z I.
      apply (key_cmp_trans Lt x y z E). now apply F.
    + constructor; [apply IH; simpl in N; tauto|].
      rewrite Forall_forall in F |- *. intros z I.
      apply insert_label_In in I. destruct I as [-> | I]; [|now apply F].
      rewrite key_cmp_antisym, E. reflexivity.
Qed.

Lemma sorted_ascending (l : list K) : NoDup l -> labels_ascending (sorted l).
Proof.
  induction 1 as [|x l N D IH]; simpl; [constructor|].
  apply insert_label_ascending; [exact IH|].
  now rewrite sorted_In.
Qed.
End SortedLabels.

Lemma string_cmp_eq (x y : string) : key_cmp x y = Eq -> x = y.
Proof.
  apply String.compare_eq_iff.
Qed.

Lemma string_pair_cmp_eq (x y : string * string) : key_cmp x y = Eq -> x = y.
Proof.
  destruct x as [a b], y as [c d]. unfold key_cmp, pair_KeyCmp; simpl.
  destruct (key_cmp a c) eqn:E; try discriminate.
  intros E'. apply string_cmp_eq in E, E'. now subst.
Qed.

(** ** The country-by-type pivot *)

Lemma series_get_Some (s : list (string * string * Z)) (c t : string) (v : Z) :
  series_get s c t = Some v -> In (c, t, v) s.
Proof.
  induction s as [|[[c' t'] v'] s IH]; simpl; [discriminate|].
  destruct (String.eqb_spec c' c) as [->|]; simpl;
    [destruct (String.eqb_spec t' t) as [->|]|]; simpl; intros E.
  - injection E as ->. now left.
  - right. now apply IH.
  - right. now apply IH.
Qed.

Lemma series_get_None (s : list (string * string * Z)) (c t : string) (v : Z) :
  series_get s c t = None -> ~ In (c, t, v) s.
Proof.
  induction s as [|[[c' t'] v'] s IH]; simpl; [tauto|].
  destruct (String.eqb_spec c' c) as [->|N]; simpl;
    [destruct (String.eqb_spec t' t) as [->|N]|]; simpl; intros E.
  - discriminate.
  - intros [J | J]; [congruence | now apply IH].
  - intros [J | J]; [congruence | now apply IH].
Qed.

Lemma same_key_string_pair (a b c t : string) :
  same_key (a, b) (c, t) = String.eqb a c && String.eqb b t.
Proof.
  unfold same_key, key_cmp, pair_KeyCmp, key_cmp, string_KeyCmp; simpl.
  destruct (String.eqb_spec a c) as [->|N]; simpl.
  - rewrite string_compare_refl.
    destruct (String.eqb_spec b t) as [->|N]; [now rewrite string_compare_refl|].
    destruct (String.compare b t) eqn:E; try reflexivity.
    now apply String.compare_eq_iff in E.
  - destruct (String.compare a c) eqn:E; try reflexivity.
    now apply String.compare_eq_iff in E.
Qed.

Lemma pair_group_total (c t : string) (fdf : DataFrame) :
  group_total (fun r => (From_Country r, Type_ r)) Passengers (c, t) fdf
  = pair_total c t fdf.
Proof.
  unfold pair_total. rewrite total_passengers_fold_right. unfold group_total.
  do 2 f_equal. apply filter_ext. intros r. apply same_key_string_pair.
Qed.

Lemma filter_none {A : Type} (p : A -> bool) (l : list A) :
  (forall x, In x l -> p x = false) -> filter p l = [].
Proof.
  induction l as [|x l IH]; simpl; intros N; [reflexivity|].
  rewrite (N x (or_introl eq_refl)). apply IH. intros y I. apply N. now right.
Qed.

(** A cell of the zero-filled pivot holds the sum over its pair's rows:
    the group's sum where the pair occurs, and the fill value 0, which
    is the sum over no rows, where it does not. *)
Lemma pivot_cell (c t : string) (fdf : DataFrame) :
  match series_get (groupby_sum (fun r => (From_Country r, Type_ r)) Passengers fdf) c t with
  | None => Some 0
  | x => x
  end = Some (pair_total c t fdf).
Proof.
  set (key := fun r => (From_Country r, Type_ r)).
  destruct (series_get (groupby_sum key Passengers fdf) c t) as [v|] eqn:E.
  - apply series_get_Some in E.
    destruct (groupby_sum_entry key Passengers fdf (c, t) v E) as [-> _].
    now rewrite pair_group_total.
  - f_equal. unfold pair_total.
    rewrite filter_none; [reflexivity|].
    intros r I.
    destruct (groupby_sum_covers key Passengers fdf r I) as (k & v & J & Q).
    apply string_pair_cmp_eq in Q. subst k.
    destruct (String.eqb_spec (From_Country r) c) as [C|]; [|reflexivity].
    destruct (String.eqb_spec (Type_ r) t) as [T|]; [|reflexivity].
    exfalso. apply (series_get_None _ c t v E).
    unfold key in J. now rewrite C, T in J.
Qed.

(** The pivot in closed form: one row per country that occurs, one
    column per type that occurs, both in strictly increasing label
    order, every cell present and holding its pair's sum. *)
Lemma country_type_pivot_spec (fdf : DataFrame) :
  exists index columns,
    country_type_pivot fdf
    = map (fun c => (c, map (fun t => (t, Some (pair_total c t fdf))) columns)) index
    /\ labels_ascending index
    /\ (forall c, In c index <-> In c (map From_Country fdf))
    /\ labels_ascending columns
    /\ (forall t, In t columns <-> In t (map Type_ fdf)).
Proof.
  set (key := fun r => (From_Country r, Type_ r)).
  set (s := groupby_sum key Passengers fdf).
  exists (sorted (unique_str (map (fun e => fst (fst e)) s))),
         (sorted (unique_str (map (fun e => snd (fst e)) s))).
  assert (L : forall k, In k (map fst s) <-> In k (map key fdf)).
  { intros k. split.
    - intros I. apply in_map_iff in I. destruct I as ([k' v] & <- & I).
      apply (groupby_sum_entry key Passengers fdf k' v I).
    - intros I. apply in_map_iff in I. destruct I as (r & <- & I).
      destruct (groupby_sum_covers key Passengers fdf r I) as (k & v & J & Q).
      apply string_pair_cmp_eq in Q. rewrite Q. apply (in_map fst _ _ J). }
  split; [|split; [|split; [|split]]].
  - unfold country_type_pivot, unstack, fillna. fold key. fold s.
    rewrite map_map. apply map_ext. intros c; simpl. f_equal.
    rewrite map_map. apply map_ext. intros t; simpl. f_equal.
    apply pivot_cell.
  - apply (sorted_ascending string_cmp_eq), unique_str_NoDup.
  - intros c. rewrite sorted_In, unique_str_In.
    replace (map From_Country fdf) with (map fst (map key fdf))
      by (now rewrite map_map).
    rewrite <- (map_map fst fst s). split.
    + intros I. apply in_map_iff in I. destruct I as (k & <- & I).
      apply in_map. now apply L.
    + intros I. apply in_map_iff in I. destruct I as (k & <- & I).
      apply in_map. now apply L.
  - apply (sorted_ascending string_cmp_eq), unique_str_NoDup.
  - intros t. rewrite sorted_In, unique_str_In.
    replace (map Type_ fdf) with (map snd (map key fdf))
      by (now rewrite map_map).
    rewrite <- (map_map fst snd s). split.
    + intros I. apply in_map_iff in I. destruct I as (k & <- & I).
      apply in_map. now apply L.
    + intros I. apply in_map_iff in I. destruct I as (k & <- & I).
      apply in_map. now apply L.
Qed.

(** ** Ranking the pivot by a helper column that is then dropped *)

Section SortMap.
Context {A B : Type}.
Variable g : A -> B.
Variable col : B -> Z.

Lemma insert_asc_map (x : A) (l : list A) :
  insert_asc col (g x) (map g l) = map g (insert_asc (fun a => col (g a)) x l).
Proof.
  induction l as [|y l IH]; simpl; [reflexivity|].
  destruct (col (g x) <=? col (g y)); simpl; [reflexivity|].
  now rewrite IH.
Qed.

Lemma sort_asc_map (l : list A) :
  sort_asc col (map g l) = map g (sort_asc (fun a => col (g a)) l).
Proof.
  induction l as [|x l IH]; simpl; [reflexivity|].
  now rewrite IH, insert_asc_map.
Qed.

Lemma sort_values_desc_map (l : list A) :
  sort_values_desc col (map g l) = map g (sort_values_desc (fun a => col (g a)) l).
Proof.
  unfold sort_values_desc.
  now rewrite <- map_rev, sort_asc_map, map_rev.
Qed.
End SortMap.

Lemma sort_values_desc_ext {A : Type} (col col' : A -> Z) (l : list A) :
  (forall x, col x = col' x) -> sort_values_desc col l = sort_values_desc col' l.
Proof.
  intros E. unfold sort_values_desc. f_equal.
  induction (rev l) as [|x r IH]; simpl; [reflexivity|].
  rewrite IH. clear IH.
  induction (sort_asc col' r) as [|y s IH]; simpl; [reflexivity|].
  now rewrite !E, IH.
Qed.

Lemma get_set_cell (name : string) (v : cell) (cells : list (string * cell)) :
  get_cell name (set_cell name v cells) = v.
Proof.
  induction cells as [|[n x] cells IH]; simpl.
  - now rewrite String.eqb_refl.
  - destruct (String.eqb n name) eqn:E; simpl; now rewrite E.
Qed.

Lemma drop_set_cell (name : string) (v : cell) (cells : list (string * cell)) :
  filter (fun e => negb (String.eqb (fst e) name)) (set_cell name v cells)
  = filter (fun e => negb (String.eqb (fst e) name)) cells.
Proof.
  induction cells as [|[n x] cells IH]; simpl.
  - now rewrite String.eqb_refl.
  - destruct (String.eqb n name) eqn:E; simpl; rewrite E; simpl; [reflexivity|].
    now rewrite IH.
Qed.

(** The helper column leaves no trace: lines 101-103 rank the pivot by
    its row totals, keep five rows and remove the column labelled Total. *)
Lemma top_departure_countries_ranked (fdf : DataFrame) :
  top_departure_countries fdf
  = drop_column "Total" (head 5 (sort_values_desc row_total (country_type_pivot fdf))).
Proof.
  unfold top_departure_countries, with_total.
  rewrite sort_values_desc_map.
  rewrite (sort_values_desc_ext _ row_total).
  - unfold head, drop_column. rewrite firstn_map, map_map.
    apply map_ext. intros row; simpl. now rewrite drop_set_cell.
  - intros row. unfold total_of, row_total; simpl. now rewrite get_set_cell.
Qed.

Lemma head_In {A : Type} (n : nat) (l : list A) (x : A) : In x (head n l) -> In x l.
Proof.
  intros I. rewrite <- (firstn_skipn n l). apply in_or_app. now left.
Qed.

Lemma filter_map_swap {A B : Type} (p : B -> bool) (f : A -> B) (l : list A) :
  filter p (map f l) = map f (filter (fun x => p (f x)) l).
Proof.
  induction l as [|x l IH]; simpl; [reflexivity|].
  destruct (p (f x)); simpl; now rewrite IH.
Qed.

Lemma non_increasing_relabel {A B : Type} (col : A -> Z) (f : A -> B) (g : B -> Z)
    (l : list A) :
  non_increasing col l ->
  (forall x, In x l -> col x = g (f x)) ->
  StronglySorted (fun a b => g b <= g a) (map f l).
Proof.
  unfold non_increasing.
  induction 1 as [|x l S IH F]; intros E; simpl; constructor.
  - apply IH. intros y I. apply E. now right.
  - rewrite Forall_forall in F |- *. intros b I.
    apply in_map_iff in I. destruct I as (y & <- & I).
    rewrite <- (E y (or_intror I)), <- (E x (or_introl eq_refl)). now apply F.
Qed.

(** Lines 101-103 in closed form, up to the order of equal totals.  With
    [index] the countries and [columns] the types of the rows, each once
    and in label order: the pivot has the row of every country and the
    column of every type, each cell holding its pair's sum; [ranked] is
    a rearrangement of all countries by non-increasing total of their
    cells; the outcome is the rows of the first five of them, with every
    column but the one labelled Total. *)
Lemma top_departure_countries_closed_form (fdf : DataFrame) :
  exists index columns ranked,
    labels_ascending index
    /\ (forall c, In c index <-> In c (map From_Country fdf))
    /\ labels_ascending columns
    /\ (forall t, In t columns <-> In t (map Type_ fdf))
    /\ country_type_pivot fdf
       = map (fun c => (c, map (fun t => (t, Some (pair_total c t fdf))) columns)) index
    /\ Permutation ranked index
    /\ StronglySorted
         (fun a b => cells_total columns b fdf <= cells_total columns a fdf) ranked
    /\ top_departure_countries fdf
       = map (fun c =>
                (c, map (fun t => (t, Some (pair_total c t fdf)))
                      (filter (fun t => negb (String.eqb t "Total")) columns)))
           (firstn 5 ranked).
Proof.
  destruct (country_type_pivot_spec fdf) as (index & columns & E & Ai & Ci & Ac & Cc).
  pose proof (sort_values_desc_perm row_total (country_type_pivot fdf)) as Pm.
  pose proof (sort_values_desc_sorted row_total (country_type_pivot fdf)) as S.
  set (rows := sort_values_desc row_total (country_type_pivot fdf)) in *.
  assert (Shape : forall row, In row rows ->
            row = (fst row, map (fun t => (t, Some (pair_total (fst row) t fdf))) columns)).
  { intros row I. apply (Permutation_in _ Pm) in I. rewrite E in I.
    apply in_map_iff in I. destruct I as (c & <- & _). reflexivity. }
  exists index, columns, (map fst rows).
  split; [exact Ai|]. split; [exact Ci|]. split; [exact Ac|]. split; [exact Cc|].
  split; [exact E|]. split; [|split].
  - replace index with (map fst (country_type_pivot fdf)).
    + now apply Permutation_map.
    + rewrite E, map_map. simpl. apply map_id.
  - apply (non_increasing_relabel row_total fst (fun c => cells_total columns c fdf)).
    + exact S.
    + intros row I. rewrite (Shape row I) at 1.
      unfold row_total, row_sum, cells_total; simpl. now rewrite map_map.
  - rewrite top_departure_countries_ranked. fold rows.
    unfold drop_column, head. rewrite firstn_map, map_map.
    apply map_ext_in. intros row I. apply (head_In 5) in I.
    rewrite (Shape row I) at 2. simpl.
    now rewrite filter_map_swap.
Qed.

(** C6.  The departure-countries table.  Passengers are summed per
    (From_Country, Type) pair and laid out with one row per country and
    one column per type of the filtered rows, every cell holding its
    pair's sum, which is 0 for a pair with no rows, so that no cell is
    missing; the countries are ranked by the total of their row's cells
    in non-increasing order and the rows of the first five are kept, in
    that order; the outcome holds, for each of them, the cell of every
    type column except the one labelled Total, which is dropped. *)
Theorem top_departure_countries_spec (fdf : DataFrame) :
  exists index columns ranked,
    labels_ascending index
    /\ (forall c, In c index <-> In c (map From_Country fdf))
    /\ labels_ascending columns
    /\ (forall t, In t columns <-> In t (map Type_ fdf))
    /\ country_type_pivot fdf
       = map (fun c => (c, map (fun t => (t, Some (pair_total c t fdf))) columns)) index
    /\ Permutation ranked index
    /\ StronglySorted
         (fun a b => cells_total columns b fdf <= cells_total columns a fdf) ranked
    /\ top_departure_countries fdf
       = map (fun c =>
                (c, map (fun t => (t, Some (pair_total c t fdf)))
                      (filter (fun t => negb (String.eqb t "Total")) columns)))
           (firstn 5 ranked)
    /\ List.length (top_departure_countries fdf) = Nat.min 5 (List.length index)
    /\ (forall c c', In c (firstn 5 ranked) -> In c' (skipn 5 ranked) ->
                     cells_total columns c' fdf <= cells_total columns c fdf).
Proof.
  destruct (top_departure_countries_closed_form fdf)
    as (index & columns & ranked & Ai & Ci & Ac & Cc & E & Pm & S & T).
  exists index, columns, ranked.
  repeat (split; [assumption|]). split.
  - rewrite T, length_map, length_firstn. now rewrite (Permutation_length Pm).
  - rewrite <- (firstn_skipn 5 ranked) in S.
    destruct (StronglySorted_split _ _ _ S) as [_ C]. exact C.
Qed.

(** ** Map line thickness *)

Lemma py_max_upper (l : list Z) (m : Z) :
  py_max l = inr m -> forall q, In q l -> q <= m.
Proof.
  destruct l as [|x l]; simpl; [discriminate|].
  intros E. injection E as <-.
  assert (G : forall r a q, (q <= a \/ In q r) -> q <= fold_left Z.max r a).
  { induction r as [|y r IH]; simpl; intros a q [L|I]; try lia; try tauto.
    - apply IH. left. lia.
    - destruct I as [<- | I]; apply IH; [left; lia | now right]. }
  intros q [<- | I]; apply G; [left; lia | now right].
Qed.

Lemma weight_bounds (p m : Z) :
  0 <= p -> p <= m -> 0 < m ->
  (2 <= 2 + inject_Z p / inject_Z m * 5)%Q
  /\ (2 + inject_Z p / inject_Z m * 5 <= 7)%Q.
Proof.
  intros P L M.
  destruct m as [|m|m]; try lia.
  unfold Qle, Qplus, Qdiv, Qinv, inject_Z; cbn [Qnum Qden].
  unfold Qmult; cbn [Qnum Qden].
  rewrite ?Pos2Z.inj_mul.
  split; lia.
Qed.

(** C7, as stated, fails: in the top set with Passengers 100 and 0 the
    route with 0 passengers gets weight exactly 2, which is not above 2. *)
Lemma line_weight_can_equal_2 :
  In 0 [100; 0]
  /\ exists w, line_weight [100; 0] 0 = inr w /\ (w == 2)%Q /\ ~ (2 < w)%Q.
Proof.
  split; [simpl; tauto|].
  eexists. split; [reflexivity|]. split.
  - reflexivity.
  - unfold Qlt; simpl. lia.
Qed.

(** A top set whose Passengers are all 0 is not empty, so the guard of
    line 181 lets the division run and it raises. *)
Lemma line_weight_zero_max :
  line_weight [0; 0] 0 = inl (ZeroDivisionError "division by zero").
Proof.
  reflexivity.
Qed.

(** C7, amended.  For a route of a top set whose maximal Passengers is
    positive, with a non-negative passenger count, the line weight is
    the value of 2 + (passengers / max) * 5 and lies in the closed range
    from 2 to 7; with top-set Passengers 100, 50, 10 the weight of the
    route with 50 is 4.5; on the empty top set the expression takes its
    default 2. *)
Theorem line_weight_spec :
  (forall top p m,
      In p top -> 0 <= p -> py_max top = inr m -> 0 < m ->
      line_weight top p = inr (2 + inject_Z p / inject_Z m * 5)%Q
      /\ (2 <= 2 + inject_Z p / inject_Z m * 5)%Q
      /\ (2 + inject_Z p / inject_Z m * 5 <= 7)%Q)
  /\ (exists w, line_weight [100; 50; 10] 50 = inr w /\ (w == 45 # 10)%Q)
  /\ (forall p, line_weight [] p = inr 2%Q).
Proof.
  split; [|split].
  - intros top p m I P E M.
    split.
    + unfold line_weight. destruct top as [|x top]; [destruct I|].
      rewrite E. destruct (Z.eqb_spec m 0); [lia | reflexivity].
    + exact (weight_bounds p m P (py_max_upper top m E p I) M).
  - eexists. split; reflexivity.
  - reflexivity.
Qed.

(** ** The script: which failures are caught *)

Lemma key_metrics_empty (page : list element) :
  key_metrics [] page
  = (page ++ [Header "Key Metrics"],
     inl (ValueError "attempt to get argmax of an empty sequence")).
Proof.
  reflexivity.
Qed.

Lemma key_metrics_shown (fdf : DataFrame) (c : string) (page : list element) :
  top_country fdf = inr c ->
  key_metrics fdf page
  = (page ++ [Header "Key Metrics";
              Metric "Total Passengers" (IntValue (total_passengers fdf));
              Metric "Total Routes" (CountValue (total_routes fdf));
              Metric "Top Origin Country" (TextValue c)],
     inr tt).
Proof.
  intros E. unfold key_metrics, bind, emit, lift. rewrite E.
  now rewrite <- !app_assoc.
Qed.

Lemma top_country_nonempty (fdf : DataFrame) :
  fdf <> [] -> exists c, top_country fdf = inr c.
Proof.
  destruct fdf as [|r fdf]; [congruence|]. intros _.
  destruct (groupby_sum_covers From_Country Passengers (r :: fdf) r (or_introl eq_refl))
    as (k & v & I & _).
  unfold top_country.
  destruct (groupby_sum From_Country Passengers (r :: fdf)) as [|g gs]; [destruct I|].
  simpl. eauto.
Qed.

Lemma data_table_shown (fdf : DataFrame) (page : list element) :
  data_table fdf page = (page ++ [Header "Flight Routes Data"; DataTable fdf], inr tt).
Proof.
  unfold data_table, bind, emit. now rewrite <- !app_assoc.
Qed.

(** The line chart and the ranked table are not wrapped: what the
    collaborator raises leaves the block. *)
Lemma passenger_trends_outcome (ext : Collaborators) (fdf : DataFrame) (page : list element) :
  passenger_trends ext fdf page
  = match ext LineChart with
    | Some e => (page ++ [Header "Passenger Trends by Year"], inl e)
    | None => (page ++ [Header "Passenger Trends by Year"; LinePlot (yearly_passengers fdf)],
               inr tt)
    end.
Proof.
  unfold passenger_trends, draw, bind, emit, raise, ret.
  destruct (ext LineChart); [reflexivity|]. now rewrite <- !app_assoc.
Qed.

Lemma busiest_routes_outcome (ext : Collaborators) (fdf : DataFrame) (page : list element) :
  exists rows,
    busiest_routes ext fdf page
    = match ext RankedTable with
      | Some e => (page ++ [Header "Top 10 Busiest Routes"], inl e)
      | None => (page ++ [Header "Top 10 Busiest Routes"; Table rows], inr tt)
      end.
Proof.
  unfold busiest_routes, draw, bind, emit, raise, ret. eexists.
  destruct (ext RankedTable); [reflexivity|]. now rewrite <- !app_assoc.
Qed.

(** The bar chart and the map are wrapped: the block always completes,
    showing its visual or, in its place, one error message. *)
Lemma departure_countries_outcome (ext : Collaborators) (fdf : DataFrame)
    (page : list element) :
  departure_countries ext fdf page
  = (page ++ [Header "Top 5 Departure Countries by Route Type";
              match ext BarChart with
              | Some e => Error "Error rendering departure countries chart: " (Some e)
              | None => BarPlot (top_departure_countries fdf)
              end],
     inr tt).
Proof.
  unfold departure_countries, try_except, draw, bind, emit, raise, ret.
  destruct (ext BarChart); now rewrite <- !app_assoc.
Qed.

Lemma for_each_lift {A B : Type} (f : A -> exn + B) (l : list A) (page : list element) :
  exists r, for_each (fun x => lift (f x)) l page = (page, r).
Proof.
  induction l as [|x l IH]; simpl.
  - eexists. reflexivity.
  - unfold bind, lift at 1. destruct (f x) as [e|y]; [eexists; reflexivity|].
    destruct IH as [r ->]. destruct r; eexists; reflexivity.
Qed.

Lemma route_map_outcome (ext : Collaborators) (fdf : DataFrame) (page : list element) :
  exists shown,
    route_map ext fdf page = (page ++ [Header "Interactive Flight Routes Map"; shown], inr tt)
    /\ ((exists routes, shown = FoliumMap routes)
        \/ (exists e, shown = Error "Error rendering map: " (Some e))).
Proof.
  unfold route_map, try_except. unfold bind at 1, emit at 1.
  unfold bind at 1.
  destruct (for_each_lift (map_route (top_routes fdf)) (top_routes fdf)
              (page ++ [Header "Interactive Flight Routes Map"])) as [r ->].
  destruct r as [e|routes].
  - eexists. unfold emit. rewrite <- app_assoc. split; [reflexivity|]. right. eauto.
  - unfold draw, bind, raise, ret, emit. destruct (ext RouteMap) as [e|].
    + eexists. rewrite <- app_assoc. split; [reflexivity|]. right. eauto.
    + eexists. rewrite <- app_assoc. split; [reflexivity|]. left. eauto.
Qed.

Lemma run_loaded (df : DataFrame) (b : bool) (c : exn + DataFrame)
    (ext : Collaborators) (sel : Selection) :
  run (mkSources (inr df) b c) ext sel
  = dashboard ext sel df (page_head ++ [Success "Data loaded from MongoDB"]).
Proof.
  reflexivity.
Qed.

Lemma dashboard_empty_filter (ext : Collaborators) (sel : Selection) (df : DataFrame)
    (page : list element) :
  filtered_df df (selected_year sel df) (selected_type sel df) = [] ->
  dashboard ext sel df page
  = (page ++ [SidebarHeader "Filter Options"; Multiselect "Select Year(s)";
              Multiselect "Select Route Type(s)"; Header "Key Metrics"],
     inl empty_argmax).
Proof.
  intros E. unfold dashboard, bind, emit. rewrite E, key_metrics_empty.
  now rewrite <- !app_assoc.
Qed.

(** C2.  On every run whose filter result is empty, the Top Origin
    Country computation raises the error of an empty argmax and nothing
    catches it: the run ends at the Key Metrics header with that error,
    having shown no metric and no message of its own. *)
Theorem empty_filter_aborts_run (df : DataFrame) (b : bool) (c : exn + DataFrame)
    (ext : Collaborators) (sel : Selection) :
  filtered_df df (selected_year sel df) (selected_type sel df) = [] ->
  top_country (filtered_df df (selected_year sel df) (selected_type sel df))
  = inl empty_argmax
  /\ run (mkSources (inr df) b c) ext sel
     = (page_head ++ [Success "Data loaded from MongoDB";
                      SidebarHeader "Filter Options"; Multiselect "Select Year(s)";
                      Multiselect "Select Route Type(s)"; Header "Key Metrics"],
        inl empty_argmax).
Proof.
  intros E. split.
  - now rewrite E.
  - rewrite run_loaded, (dashboard_empty_filter ext sel df _ E).
    now rewrite <- app_assoc.
Qed.

Lemma empty_filter_aborts_run_witness :
  filtered_df sample_df [2019] ["A"] = []
  /\ top_country (filtered_df sample_df [2019] ["A"]) = inl empty_argmax
  /\ run (mkSources (inr sample_df) false (inl mongo_down)) all_drawn
         (mkSelection (Some [2019]) (Some ["A"]))
     = (page_head ++ [Success "Data loaded from MongoDB";
                      SidebarHeader "Filter Options"; Multiselect "Select Year(s)";
                      Multiselect "Select Route Type(s)"; Header "Key Metrics"],
        inl empty_argmax).
Proof.
  split; [reflexivity|].
  apply (empty_filter_aborts_run sample_df false (inl mongo_down) all_drawn
           (mkSelection (Some [2019]) (Some ["A"]))).
  reflexivity.
Defined.

(** C3.  The Key Metrics block is not wrapped.  With the year selection
    emptied, whatever the dataset, its failure ends the run: the run
    returns the error, no error message is shown in place of the block,
    and no metric, data table, chart, ranked table or map is on the page. *)
Theorem unwrapped_metrics_failure_ends_run (df : DataFrame) (b : bool)
    (c : exn + DataFrame) (ext : Collaborators) (ts : option (list string)) :
  snd (run (mkSources (inr df) b c) ext (mkSelection (Some []) ts)) = inl empty_argmax
  /\ error_count (fst (run (mkSources (inr df) b c) ext (mkSelection (Some []) ts))) = 0%nat
  /\ filter is_visual (fst (run (mkSources (inr df) b c) ext (mkSelection (Some []) ts))) = [].
Proof.
  assert (E : filtered_df df (selected_year (mkSelection (Some []) ts) df)
                (selected_type (mkSelection (Some []) ts) df) = []).
  { apply filtered_df_no_year. }
  rewrite run_loaded, (dashboard_empty_filter ext _ df _ E).
  repeat split.
Qed.

(** X10.  A failure of the line chart, which is not wrapped either, ends
    the run before the bar chart, the ranked table and the map: on a
    non-empty filter result the page stops at the header of the line
    chart and the run returns what the chart raised. *)
Lemma line_chart_failure_ends_run (df : DataFrame) (b : bool) (c : exn + DataFrame)
    (ext : Collaborators) (sel : Selection) (e : exn) :
  filtered_df df (selected_year sel df) (selected_type sel df) <> [] ->
  ext LineChart = Some e ->
  exists country,
    run (mkSources (inr df) b c) ext sel
    = (page_head
         ++ [Success "Data loaded from MongoDB";
             SidebarHeader "Filter Options"; Multiselect "Select Year(s)";
             Multiselect "Select Route Type(s)"; Header "Key Metrics";
             Metric "Total Passengers"
               (IntValue (total_passengers
                  (filtered_df df (selected_year sel df) (selected_type sel df))));
             Metric "Total Routes"
               (CountValue (total_routes
                  (filtered_df df (selected_year sel df) (selected_type sel df))));
             Metric "Top Origin Country" (TextValue country);
             Header "Flight Routes Data";
             DataTable (filtered_df df (selected_year sel df) (selected_type sel df));
             Header "Passenger Trends by Year"],
       inl e).
Proof.
  intros N L.
  destruct (top_country_nonempty _ N) as [country T]. exists country.
  rewrite run_loaded. unfold dashboard.
  unfold bind at 1. unfold emit at 1.
  unfold bind at 1. unfold emit at 1.
  unfold bind at 1. unfold emit at 1.
  unfold bind at 1. rewrite (key_metrics_shown _ country _ T).
  unfold bind at 1. rewrite data_table_shown.
  unfold bind at 1. rewrite passenger_trends_outcome, L.
  now rewrite <- !app_assoc.
Qed.

(** X11.  When the three unwrapped blocks succeed, the run completes
    whatever happens in the bar chart and the map: each of the two shows
    its visual or one error message in its place, and the ranked table
    between them is shown either way. *)
Lemma wrapped_blocks_isolate_failures (df : DataFrame) (b : bool) (c : exn + DataFrame)
    (ext : Collaborators) (sel : Selection) :
  filtered_df df (selected_year sel df) (selected_type sel df) <> [] ->
  ext LineChart = None ->
  ext RankedTable = None ->
  exists before rows shown,
    run (mkSources (inr df) b c) ext sel
    = (before
         ++ [Header "Top 5 Departure Countries by Route Type";
             match ext BarChart with
             | Some e => Error "Error rendering departure countries chart: " (Some e)
             | None =>
                 BarPlot (top_departure_countries
                            (filtered_df df (selected_year sel df) (selected_type sel df)))
             end;
             Header "Top 10 Busiest Routes"; Table rows;
             Header "Interactive Flight Routes Map"; shown],
       inr tt)
    /\ ((exists routes, shown = FoliumMap routes)
        \/ (exists e, shown = Error "Error rendering map: " (Some e))).
Proof.
  intros N L R.
  destruct (top_country_nonempty _ N) as [country T].
  rewrite run_loaded. unfold dashboard.
  unfold bind at 1. unfold emit at 1.
  unfold bind at 1. unfold emit at 1.
  unfold bind at 1. unfold emit at 1.
  unfold bind at 1. rewrite (key_metrics_shown _ country _ T).
  unfold bind at 1. rewrite data_table_shown.
  unfold bind at 1. rewrite passenger_trends_outcome, L.
  unfold bind at 1. rewrite departure_countries_outcome.
  unfold bind at 1.
  match goal with
  | |- context [busiest_routes ext ?f ?p] =>
      destruct (busiest_routes_outcome ext f p) as [rows ->]
  end.
  rewrite R.
  match goal with
  | |- context [route_map ext ?f ?p] =>
      destruct (route_map_outcome ext f p) as (shown & -> & S)
  end.
  exists (page_head
            ++ [Success "Data loaded from MongoDB";
                SidebarHeader "Filter Options"; Multiselect "Select Year(s)";
                Multiselect "Select Route Type(s)"; Header "Key Metrics";
                Metric "Total Passengers"
                  (IntValue (total_passengers
                     (filtered_df df (selected_year sel df) (selected_type sel df))));
                Metric "Total Routes"
                  (CountValue (total_routes
                     (filtered_df df (selected_year sel df) (selected_type sel df))));
                Metric "Top Origin Country" (TextValue country);
                Header "Flight Routes Data";
                DataTable (filtered_df df (selected_year sel df) (selected_type sel df));
                Header "Passenger Trends by Year";
                LinePlot (yearly_passengers
                            (filtered_df df (selected_year sel df) (selected_type sel df)))]),
    rows, shown.
  split; [|exact S].
  rewrite <- !app_assoc. reflexivity.
Qed.

(** ** Data loading and the unavailable case *)

(** C4, as stated, fails: with the database down and no file, the page
    holds two error messages, the loader's and the caller's, not one. *)
Lemma unavailable_shows_two_errors :
  error_count
    (fst (run (mkSources (inl mongo_down) false (inl mongo_down)) all_drawn
            (mkSelection None None)))
  = 2%nat
  /\ error_count
       (fst (run (mkSources (inl mongo_down) false (inl mongo_down)) all_drawn
               (mkSelection None None)))
     <> 1%nat.
Proof.
  split; [reflexivity | discriminate].
Qed.

(** X12.  A file that exists but cannot be read is not a handled case:
    after the warning about the database the exception of [read_csv]
    leaves the loader and ends the run, with no error message and no
    dashboard. *)
Lemma unreadable_csv_ends_run (e e' : exn) (ext : Collaborators) (sel : Selection) :
  run (mkSources (inl e) true (inl e')) ext sel
  = (page_head ++ [Warning "Could not connect to MongoDB: " e], inl e').
Proof.
  reflexivity.
Qed.

(** C4, amended.  The loader tries the database first and returns its
    data when that succeeds, whatever the file; when the database
    raises it warns and, if the file exists and reads, returns the
    file's data; when the database raises and the file is absent it
    shows one warning and one error and returns None.  In that case the
    run shows nothing of the dashboard: after the title and description
    the page holds the warning and exactly two error messages, the
    loader's and the caller's, and no visual. *)
Theorem load_data_fallback :
  (forall df b c page,
      load_data (mkSources (inr df) b c) page
      = (page ++ [Success "Data loaded from MongoDB"], inr (Some df)))
  /\ (forall e df page,
        load_data (mkSources (inl e) true (inr df)) page
        = (page ++ [Warning "Could not connect to MongoDB: " e;
                    Success "Data loaded from CSV"],
           inr (Some df)))
  /\ (forall e c page,
        load_data (mkSources (inl e) false c) page
        = (page ++ [Warning "Could not connect to MongoDB: " e;
                    Error "No data source available. Please ensure MongoDB is running or provide a CSV file." None],
           inr None))
  /\ (forall e c ext sel,
        run (mkSources (inl e) false c) ext sel
        = (page_head
             ++ [Warning "Could not connect to MongoDB: " e;
                 Error "No data source available. Please ensure MongoDB is running or provide a CSV file." None;
                 Error "Unable to load data for visualization." None],
           inr tt)
        /\ error_count (fst (run (mkSources (inl e) false c) ext sel)) = 2%nat
        /\ filter is_visual (fst (run (mkSources (inl e) false c) ext sel)) = []).
Proof.
  split; [|split; [|split]].
  - reflexivity.
  - intros e df page. unfold load_data, try_except, bind, emit, lift, ret; simpl.
    now rewrite <- app_assoc.
  - intros e c page. unfold load_data, try_except, bind, emit, lift, ret; simpl.
    now rewrite <- app_assoc.
  - intros e c ext sel. repeat split.
Qed.

(** ** The pipeline on the example data *)

Lemma empty_filter_totals_witness :
  filtered_df sample_df [2019] ["A"; "B"] = []
  /\ total_passengers (filtered_df sample_df [2019] ["A"; "B"]) = 0
  /\ total_routes (filtered_df sample_df [2019] ["A"; "B"]) = 0%nat.
Proof.
  split; [reflexivity|].
  apply (empty_filter_totals sample_df [2019] ["A"; "B"]).
  reflexivity.
Defined.

(** Filtering the three records to 2020 and type A keeps the two
    records of 10 and 20 passengers. *)
Example sample_filter_scenario :
  total_routes (filtered_df sample_df [2020] ["A"]) = 2%nat
  /\ total_passengers (filtered_df sample_df [2020] ["A"]) = 30
  /\ top_country (filtered_df sample_df [2020] ["A"]) = inr "Japan"
  /\ yearly_passengers sample_df = [(2020, 30); (2021, 5)]
  /\ map snd (top_routes sample_df) = [20; 10; 5]
  /\ top_departure_countries sample_df
     = [("Japan", [("A", Some 20); ("B", Some 0)]);
        ("South Korea", [("A", Some 10); ("B", Some 0)]);
        ("United Arab Emirates", [("A", Some 0); ("B", Some 5)])].
Proof.
  repeat split.
Qed.

(** * Further properties of the pipeline *)

(** ** The multiselect options and the default selection *)

Lemma unique_Z_In (l : list Z) (x : Z) : In x (unique_Z l) <-> In x l.
Proof.
  induction l as [|y l IH]; simpl; [tauto|].
  rewrite filter_In, IH, negb_true_iff, Z.eqb_neq.
  destruct (Z.eq_dec x y); intuition congruence.
Qed.

Lemma unique_Z_NoDup (l : list Z) : NoDup (unique_Z l).
Proof.
  induction l as [|y l IH]; simpl; constructor.
  - rewrite filter_In, Z.eqb_refl. simpl. intuition discriminate.
  - now apply NoDup_filter.
Qed.

Lemma Z_cmp_eq (x y : Z) : key_cmp x y = Eq -> x = y.
Proof.
  apply Z.compare_eq_iff.
Qed.

Lemma filter_all {A : Type} (p : A -> bool) (l : list A) :
  (forall x, In x l -> p x = true) -> filter p l = l.
Proof.
  induction l as [|x l IH]; simpl; intros T; [reflexivity|].
  rewrite (T x (or_introl eq_refl)). f_equal. apply IH. intros y I. apply T. now right.
Qed.

(** X1.  The year options are the years of the dataset, each once, in
    strictly increasing order; the route-type options are the types of
    the dataset, each once. *)
Theorem filter_options_spec (df : DataFrame) :
  labels_ascending (year_options df)
  /\ (forall y, In y (year_options df) <-> In y (map Year df))
  /\ NoDup (route_type_options df)
  /\ (forall t, In t (route_type_options df) <-> In t (map Type_ df)).
Proof.
  unfold year_options, route_type_options. repeat split.
  - apply (sorted_ascending Z_cmp_eq), unique_Z_NoDup.
  - rewrite sorted_In, unique_Z_In. tauto.
  - rewrite sorted_In, unique_Z_In. tauto.
  - apply unique_str_NoDup.
  - apply unique_str_In.
  - apply unique_str_In.
Qed.

(** X2.  With both multiselects untouched the filter keeps the whole
    dataset, rows and order. *)
Theorem default_selection_keeps_all (df : DataFrame) :
  filtered_df df (selected_year (mkSelection None None) df)
    (selected_type (mkSelection None None) df)
  = df.
Proof.
  unfold filtered_df, selected_year, selected_type; simpl.
  apply filter_all. intros r I.
  apply andb_true_iff. split.
  - apply isin_Z_In. unfold year_options. rewrite sorted_In, unique_Z_In.
    now apply in_map.
  - apply isin_str_In. unfold route_type_options. rewrite unique_str_In.
    now apply in_map.
Qed.

(** ** Grouping conserves the total *)

Lemma add_group_sum {K : Type} `{KeyCmp K} (k : K) (v : Z) (gs : list (K * Z)) :
  series_sum (add_group k v gs) = series_sum gs + v.
Proof.
  unfold series_sum.
  induction gs as [|[k' v'] gs IH]; simpl; [lia|].
  destruct (key_cmp k k'); simpl; try rewrite IH; lia.
Qed.

Lemma groupby_sum_conserves {A K : Type} `{KeyCmp K} (key : A -> K) (val : A -> Z)
    (rows : list A) :
  series_sum (groupby_sum key val rows) = fold_right Z.add 0 (map val rows).
Proof.
  unfold groupby_sum.
  assert (G : forall gs,
             series_sum (fold_left (fun gs r => add_group (key r) (val r) gs) rows gs)
             = series_sum gs + fold_right Z.add 0 (map val rows)).
  { induction rows as [|r rows IH]; intros gs; simpl; [lia|].
    rewrite IH, add_group_sum. lia. }
  rewrite G. reflexivity.
Qed.

Lemma series_sum_app {K : Type} (s s' : list (K * Z)) :
  series_sum (s ++ s') = series_sum s + series_sum s'.
Proof.
  unfold series_sum. induction s as [|g s IH]; simpl; lia.
Qed.

Lemma series_sum_perm {K : Type} (s s' : list (K * Z)) :
  Permutation s s' -> series_sum s = series_sum s'.
Proof.
  unfold series_sum. induction 1; simpl; lia.
Qed.

(** X3.  Every grouping of the filtered rows adds up to the Total
    Passengers metric: the points of the yearly trend, the per-country
    sums behind the Top Origin Country, and the route groups behind the
    ranked table each sum to [total_passengers]. *)
Theorem groupings_sum_to_total (fdf : DataFrame) :
  series_sum (yearly_passengers fdf) = total_passengers fdf
  /\ series_sum (groupby_sum From_Country Passengers fdf) = total_passengers fdf
  /\ series_sum (route_data fdf) = total_passengers fdf
  /\ series_sum (top_routes fdf) + series_sum (excluded_routes fdf) = total_passengers fdf.
Proof.
  rewrite total_passengers_fold_right.
  unfold yearly_passengers, route_data.
  repeat split; try apply groupby_sum_conserves.
  unfold top_routes, excluded_routes, head.
  rewrite <- series_sum_app, firstn_skipn.
  rewrite <- (groupby_sum_conserves route_key Passengers fdf).
  apply series_sum_perm, sort_values_desc_perm.
Qed.

(** ** The Top Origin Country *)

Lemma StronglySorted_app_r {A : Type} (R : A -> A -> Prop) (l1 l2 : list A) :
  StronglySorted R (l1 ++ l2) -> StronglySorted R l2.
Proof.
  induction l1 as [|x l1 IH]; simpl; intros S; [exact S|].
  inversion S; subst. now apply IH.
Qed.

(** [idxmax] returns the first of the maximal entries: nothing before it
    reaches its value and nothing after it exceeds it. *)
Lemma idxmax_from_first_max {K : Type} (s pre mid : list (K * Z)) (best : K * Z) :
  (forall g, In g pre -> snd g < snd best) ->
  (forall g, In g mid -> snd g <= snd best) ->
  exists v l1 l2,
    pre ++ best :: mid ++ s = l1 ++ (idxmax_from best s, v) :: l2
    /\ (forall g, In g l1 -> snd g < v)
    /\ (forall g, In g l2 -> snd g <= v).
Proof.
  revert pre mid best.
  induction s as [|[k v'] s IH]; intros pre mid best P M; simpl.
  - exists (snd best), pre, mid. rewrite app_nil_r. destruct best. now repeat split.
  - destruct (Z.ltb_spec (snd best) v') as [L|L].
    + destruct (IH (pre ++ best :: mid) [] (k, v')) as (v & l1 & l2 & E & B & C).
      * intros g I. simpl. apply in_app_or in I. destruct I as [I | [<- | I]].
        -- specialize (P g I). lia.
        -- exact L.
        -- specialize (M g I). lia.
      * intros g [].
      * exists v, l1, l2. split; [|now split].
        rewrite <- E. rewrite <- !app_assoc. reflexivity.
    + destruct (IH pre (mid ++ [(k, v')]) best) as (v & l1 & l2 & E & B & C).
      * exact P.
      * intros g I. apply in_app_or in I. destruct I as [I | [<- | []]].
        -- now apply M.
        -- exact L.
      * exists v, l1, l2. split; [|now split].
        rewrite <- E. rewrite <- !app_assoc. reflexivity.
Qed.

Lemma country_group_total (c : string) (fdf : DataFrame) :
  group_total From_Country Passengers c fdf = country_total c fdf.
Proof.
  unfold country_total. rewrite total_passengers_fold_right. unfold group_total.
  do 2 f_equal. apply filter_ext. intros r.
  unfold same_key, key_cmp, string_KeyCmp.
  destruct (String.eqb_spec (From_Country r) c) as [->|N].
  - now rewrite string_compare_refl.
  - destruct (String.compare (From_Country r) c) eqn:E; try reflexivity.
    now apply String.compare_eq_iff in E.
Qed.

(** X4.  On a non-empty filter result the Top Origin Country is a
    country of the filtered rows whose summed Passengers no other
    country of the rows exceeds; among countries with that same sum it
    is the first in label order. *)
Theorem top_country_spec (fdf : DataFrame) :
  fdf <> [] ->
  exists c,
    top_country fdf = inr c
    /\ In c (map From_Country fdf)
    /\ (forall c', In c' (map From_Country fdf) ->
                   country_total c' fdf <= country_total c fdf)
    /\ (forall c', In c' (map From_Country fdf) ->
                   country_total c' fdf = country_total c fdf ->
                   String.compare c c' <> Gt).
Proof.
  intros N.
  pose proof (groupby_sum_ascending From_Country Passengers fdf) as S.
  pose proof (groupby_sum_entry From_Country Passengers fdf) as En.
  pose proof (groupby_sum_covers From_Country Passengers fdf) as Cov.
  unfold top_country.
  destruct (groupby_sum From_Country Passengers fdf) as [|g s] eqn:G.
  { destruct fdf as [|r fdf]; [congruence|].
    destruct (Cov r (or_introl eq_refl)) as (k & v & [] & _). }
  destruct (idxmax_from_first_max s [] [] g) as (v & l1 & l2 & E & B & C);
    try (intros ? []).
  simpl in E. simpl. set (c := idxmax_from g s) in *.
  exists c. split; [reflexivity|].
  assert (I : In (c, v) (g :: s)) by (rewrite E; apply in_elt).
  destruct (En c v I) as [V Ic]. rewrite country_group_total in V.
  split; [exact Ic|].
  assert (W : forall c', In c' (map From_Country fdf) ->
                In (c', country_total c' fdf) (l1 ++ (c, v) :: l2)).
  { intros c' I'. apply in_map_iff in I'. destruct I' as (r & <- & I').
    destruct (Cov r I') as (k & v' & J & Q).
    apply string_cmp_eq in Q. rewrite <- Q in J.
    destruct (En _ _ J) as [V' _]. rewrite country_group_total in V'.
    rewrite <- V', <- E. exact J. }
  split.
  - intros c' I'. specialize (W c' I'). rewrite <- V.
    apply in_app_or in W. destruct W as [W | [W | W]].
    + specialize (B _ W). simpl in B. lia.
    + injection W as _ <-. lia.
    + now specialize (C _ W).
  - intros c' I' T. specialize (W c' I'). rewrite <- V in T.
    apply in_app_or in W. destruct W as [W | [W | W]].
    + specialize (B _ W). simpl in B. lia.
    + injection W as <- _. change (key_cmp c c <> Gt). rewrite key_cmp_refl. discriminate.
    + rewrite E in S. apply StronglySorted_app_r in S.
      inversion S as [|? ? _ F]; subst. rewrite Forall_forall in F.
      specialize (F _ W). simpl in F.
      change (key_cmp c c' <> Gt). rewrite F. discriminate.
Qed.

Lemma top_country_spec_witness :
  sample_df <> []
  /\ exists c,
       top_country sample_df = inr c
       /\ In c (map From_Country sample_df)
       /\ (forall c', In c' (map From_Country sample_df) ->
                      country_total c' sample_df <= country_total c sample_df)
       /\ (forall c', In c' (map From_Country sample_df) ->
                      country_total c' sample_df = country_total c sample_df ->
                      String.compare c c' <> Gt).
Proof.
  split; [discriminate|].
  apply (top_country_spec sample_df). discriminate.
Defined.

(** ** Line thickness follows traffic *)

Lemma py_max_In (l : list Z) (m : Z) : py_max l = inr m -> In m l.
Proof.
  destruct l as [|x l]; simpl; [discriminate|].
  intros E. injection E as <-.
  assert (G : forall r a, fold_left Z.max r a = a \/ In (fold_left Z.max r a) r).
  { induction r as [|y r IH]; intros a; simpl; [now left|].
    destruct (IH (Z.max a y)) as [E | I]; [|now right; right].
    rewrite E. destruct (Z.max_spec a y) as [[_ ->] | [_ ->]]; [right; now left | now left]. }
  destruct (G l x) as [-> | I]; [now left | now right].
Qed.

Lemma line_weight_value (top : list Z) (m p : Z) :
  py_max top = inr m -> m <> 0 ->
  line_weight top p = inr (2 + inject_Z p / inject_Z m * 5)%Q.
Proof.
  intros E N. unfold line_weight.
  destruct top as [|x top]; [discriminate|].
  rewrite E. now destruct (Z.eqb_spec m 0).
Qed.

(** X5.  When the largest Passengers of the top routes is positive, the
    line weight grows with the passenger count, and the busiest route,
    which is one of the top routes, is drawn with weight 7. *)
Theorem line_weight_monotone (top : list Z) (m p q : Z) :
  py_max top = inr m -> 0 < m -> p <= q ->
  exists wp wq wm,
    line_weight top p = inr wp
    /\ line_weight top q = inr wq
    /\ (wp <= wq)%Q
    /\ In m top
    /\ line_weight top m = inr wm
    /\ (wm == 7)%Q.
Proof.
  intros E M L.
  assert (N : m <> 0) by lia.
  exists (2 + inject_Z p / inject_Z m * 5)%Q, (2 + inject_Z q / inject_Z m * 5)%Q,
         (2 + inject_Z m / inject_Z m * 5)%Q.
  rewrite !(line_weight_value top m _ E N).
  repeat split; try exact (py_max_In top m E).
  - destruct m as [|m|m]; try lia.
    unfold Qle, Qplus, Qdiv, Qinv, inject_Z; cbn [Qnum Qden].
    unfold Qmult; cbn [Qnum Qden].
    rewrite ?Pos2Z.inj_mul. nia.
  - destruct m as [|m|m]; try lia.
    unfold Qeq, Qplus, Qdiv, Qinv, inject_Z; cbn [Qnum Qden].
    unfold Qmult; cbn [Qnum Qden].
    rewrite ?Pos2Z.inj_mul. nia.
Qed.

Lemma line_weight_monotone_witness :
  py_max [100; 50; 10] = inr 100 /\ 0 < 100 /\ 10 <= 50
  /\ exists wp wq wm,
       line_weight [100; 50; 10] 10 = inr wp
       /\ line_weight [100; 50; 10] 50 = inr wq
       /\ (wp <= wq)%Q
       /\ In 100 [100; 50; 10]
       /\ line_weight [100; 50; 10] 100 = inr wm
       /\ (wm == 7)%Q.
Proof.
  split; [reflexivity|]. split; [lia|]. split; [lia|].
  apply (line_weight_monotone [100; 50; 10] 100 10 50); [reflexivity | lia | lia].
Defined.

(** ** The map block *)

Lemma map_route_value (top : list (RouteKey * Z)) (row : RouteKey * Z) (m : Z) :
  py_max (map snd top) = inr m -> m <> 0 ->
  map_route top row = inr (drawn_route m row).
Proof.
  intros E N.
  destruct row as [[[[[[[route from] to] from_lat] from_lon] to_lat] to_lon] p].
  unfold map_route, drawn_route.
  now rewrite (line_weight_value _ m p E N).
Qed.

Lemma for_each_lift_all {A B : Type} (f : A -> exn + B) (g : A -> B) (l : list A)
    (page : list element) :
  (forall x, In x l -> f x = inr (g x)) ->
  for_each (fun x => lift (f x)) l page = (page, inr (map g l)).
Proof.
  induction l as [|x l IH]; intros E; simpl; [reflexivity|].
  unfold bind, lift at 1. rewrite (E x (or_introl eq_refl)).
  rewrite IH; [reflexivity|]. intros y I. apply E. now right.
Qed.

Lemma route_map_drawn_block (ext : Collaborators) (fdf : DataFrame) (m : Z)
    (page : list element) :
  py_max (map snd (top_routes fdf)) = inr m -> m <> 0 -> ext RouteMap = None ->
  route_map ext fdf page
  = (page ++ [Header "Interactive Flight Routes Map";
              FoliumMap (map (drawn_route m) (top_routes fdf))],
     inr tt).
Proof.
  intros E N D.
  unfold route_map, try_except. unfold bind at 1, emit at 1. unfold bind at 1.
  rewrite (for_each_lift_all _ (drawn_route m)).
  - unfold draw, bind, ret, emit. rewrite D. now rewrite <- app_assoc.
  - intros row _. now apply map_route_value.
Qed.

(** X6.  When the largest Passengers of the top routes is not zero and
    the map library draws, the map block shows one route per top route,
    in rank order and so at most 10, each with the weight
    2 + passengers / max * 5 and its midpoint at the mean of its
    endpoints' coordinates. *)
Theorem route_map_drawn (ext : Collaborators) (fdf : DataFrame) (m : Z)
    (page : list element) :
  py_max (map snd (top_routes fdf)) = inr m -> m <> 0 -> ext RouteMap = None ->
  route_map ext fdf page
  = (page ++ [Header "Interactive Flight Routes Map";
              FoliumMap (map (drawn_route m) (top_routes fdf))],
     inr tt)
  /\ (List.length (map (drawn_route m) (top_routes fdf)) <= 10)%nat.
Proof.
  intros E N D. split.
  - now apply route_map_drawn_block.
  - rewrite length_map. unfold top_routes, head. apply firstn_le_length.
Qed.

Lemma route_map_drawn_witness :
  py_max (map snd (top_routes sample_df)) = inr 20 /\ 20 <> 0
  /\ all_drawn RouteMap = None
  /\ route_map all_drawn sample_df []
     = ([] ++ [Header "Interactive Flight Routes Map";
               FoliumMap (map (drawn_route 20) (top_routes sample_df))],
        inr tt)
  /\ (List.length (map (drawn_route 20) (top_routes sample_df)) <= 10)%nat.
Proof.
  split; [reflexivity|]. split; [discriminate|]. split; [reflexivity|].
  apply (route_map_drawn all_drawn sample_df 20 []);
    [reflexivity | discriminate | reflexivity].
Defined.

Lemma group_total_zero {A K : Type} `{KeyCmp K} (key : A -> K) (val : A -> Z) (k : K)
    (rows : list A) :
  (forall r, In r rows -> val r = 0) -> group_total key val k rows = 0.
Proof.
  unfold group_total. induction rows as [|r rows IH]; intros Z0; simpl; [reflexivity|].
  assert (IH' : fold_right Z.add 0
                  (map val (filter (fun r => same_key (key r) k) rows)) = 0)
    by (apply IH; intros x I; apply Z0; now right).
  destruct (same_key (key r) k); simpl; [|exact IH'].
  rewrite IH', (Z0 r (or_introl eq_refl)). reflexivity.
Qed.

(** X7.  When the filtered rows are not empty but none has passengers,
    the emptiness guard of the line weight does not apply, the division
    by the zero maximum raises, and the map block shows that error in
    place of the map and completes. *)
Theorem route_map_no_traffic (ext : Collaborators) (fdf : DataFrame)
    (page : list element) :
  fdf <> [] -> (forall r, In r fdf -> Passengers r = 0) ->
  route_map ext fdf page
  = (page ++ [Header "Interactive Flight Routes Map";
              Error "Error rendering map: " (Some (ZeroDivisionError "division by zero"))],
     inr tt).
Proof.
  intros N Z0.
  assert (A0 : forall g, In g (top_routes fdf) -> snd g = 0).
  { intros [k v] I. apply head_In in I.
    apply (Permutation_in _ (sort_values_desc_perm snd (route_data fdf))) in I.
    destruct (groupby_sum_entry route_key Passengers fdf k v I) as [-> _].
    now apply group_total_zero. }
  assert (NE : top_routes fdf <> []).
  { destruct fdf as [|r fdf]; [congruence|].
    destruct (groupby_sum_covers route_key Passengers (r :: fdf) r (or_introl eq_refl))
      as (k & v & I & _).
    apply (Permutation_in _ (Permutation_sym (sort_values_desc_perm snd _))) in I.
    unfold top_routes, route_data, head.
    destruct (sort_values_desc snd (groupby_sum route_key Passengers (r :: fdf)));
      [destruct I | discriminate]. }
  destruct (top_routes fdf) as [|g tl] eqn:T; [congruence|].
  assert (M : py_max (map snd (g :: tl)) = inr 0).
  { destruct (py_max (map snd (g :: tl))) as [e|m] eqn:E; [discriminate|].
    pose proof (py_max_In _ _ E) as I. apply in_map_iff in I.
    destruct I as (g' & <- & I). now rewrite (A0 g' I). }
  assert (F : map_route (g :: tl) g = inl (ZeroDivisionError "division by zero")).
  { destruct g as [[[[[[[route from] to] from_lat] from_lon] to_lat] to_lon] p].
    unfold map_route, line_weight.
    change (map snd ((route, from, to, from_lat, from_lon, to_lat, to_lon, p) :: tl))
      with (p :: map snd tl) in *.
    now rewrite M. }
  unfold route_map, try_except. unfold bind at 1, emit at 1. unfold bind at 1.
  rewrite T. simpl for_each. unfold bind at 1, lift at 1. rewrite F.
  unfold emit. now rewrite <- app_assoc.
Qed.

Lemma route_map_no_traffic_witness :
  idle_df <> [] /\ (forall r, In r idle_df -> Passengers r = 0)
  /\ route_map all_drawn idle_df []
     = ([] ++ [Header "Interactive Flight Routes Map";
               Error "Error rendering map: "
                 (Some (ZeroDivisionError "division by zero"))],
        inr tt).
Proof.
  assert (Z0 : forall r, In r idle_df -> Passengers r = 0).
  { intros r [<- | [<- | []]]; reflexivity. }
  split; [discriminate|]. split; [exact Z0|].
  apply (route_map_no_traffic all_drawn idle_df []); [discriminate | exact Z0].
Defined.

(** ** The departure-countries chart ranks countries by their passengers *)

Lemma pair_total_cons (c t : string) (r : Row) (fdf : DataFrame) :
  pair_total c t (r :: fdf)
  = (if String.eqb (From_Country r) c && String.eqb (Type_ r) t then Passengers r else 0)
    + pair_total c t fdf.
Proof.
  unfold pair_total. rewrite !total_passengers_fold_right. simpl.
  destruct (String.eqb (From_Country r) c && String.eqb (Type_ r) t); simpl; lia.
Qed.

Lemma country_total_cons (c : string) (r : Row) (fdf : DataFrame) :
  country_total c (r :: fdf)
  = (if String.eqb (From_Country r) c then Passengers r else 0) + country_total c fdf.
Proof.
  unfold country_total. rewrite !total_passengers_fold_right. simpl.
  destruct (String.eqb (From_Country r) c); simpl; lia.
Qed.

Lemma sum_indicator (a : string) (v : Z) (l : list string) :
  NoDup l ->
  fold_right Z.add 0 (map (fun t => if String.eqb a t then v else 0) l)
  = if in_dec string_dec a l then v else 0.
Proof.
  induction 1 as [|x l N D IH]; [reflexivity|].
  cbn [map fold_right]. rewrite IH.
  destruct (in_dec string_dec a (x :: l)) as [I|I];
    destruct (in_dec string_dec a l) as [J|J];
    destruct (String.eqb_spec a x) as [E|E]; subst; simpl in I; try lia; intuition congruence.
Qed.

(** Over columns that hold every type of the rows, each once, the cells
    of a country's row add up to the country's passengers. *)
Lemma pair_totals_sum_to_country (c : string) (columns : list string) (fdf : DataFrame) :
  NoDup columns ->
  (forall t, In t (map Type_ fdf) -> In t columns) ->
  fold_right Z.add 0 (map (fun t => pair_total c t fdf) columns) = country_total c fdf.
Proof.
  intros D. induction fdf as [|r fdf IH]; intros Cov.
  - unfold pair_total, country_total; simpl.
    induction columns as [|t columns IHc]; simpl; [reflexivity|].
    inversion D; subst. now rewrite IHc.
  - rewrite country_total_cons, <- IH by (intros t I; apply Cov; now right).
    rewrite (map_ext _ _ (fun t => pair_total_cons c t r fdf)).
    assert (S : forall (f g : string -> Z) l,
               fold_right Z.add 0 (map (fun t => f t + g t) l)
               = fold_right Z.add 0 (map f l) + fold_right Z.add 0 (map g l)).
    { intros f g l. induction l as [|x l IHl]; simpl; lia. }
    rewrite S. f_equal.
    destruct (String.eqb (From_Country r) c); simpl.
    + rewrite (sum_indicator (Type_ r) (Passengers r) columns D).
      destruct (in_dec string_dec (Type_ r) columns) as [_|C]; [reflexivity|].
      destruct C. apply Cov. now left.
    + clear. induction columns as [|x l IHl]; simpl; [reflexivity | exact IHl].
Qed.


Lemma labels_ascending_NoDup (l : list string) : labels_ascending l -> NoDup l.
Proof.
  induction 1 as [|x l S IH F]; constructor; [|exact IH].
  intros I. rewrite Forall_forall in F. specialize (F x I).
  change (key_cmp x x = Lt) in F. rewrite key_cmp_refl in F. discriminate.
Qed.

Lemma head_NoDup {A : Type} (n : nat) (l : list A) : NoDup l -> NoDup (head n l).
Proof.
  intros D. revert n. induction D as [|x l N D IH]; intros [|n]; simpl; try constructor.
  - intros I. apply N. exact (head_In n l x I).
  - apply IH.
Qed.

Lemma pivot_row_total (fdf : DataFrame) (row : string * list (string * cell)) :
  In row (country_type_pivot fdf) -> row_total row = country_total (fst row) fdf.
Proof.
  destruct (country_type_pivot_spec fdf) as (index & columns & E & _ & _ & A & Cov).
  rewrite E. intros I. apply in_map_iff in I. destruct I as (c & <- & _).
  unfold row_total, row_sum; simpl. rewrite map_map; simpl.
  apply pair_totals_sum_to_country.
  - now apply labels_ascending_NoDup.
  - intros t I. now apply Cov.
Qed.

Lemma StronglySorted_weaken {A : Type} (R R' : A -> A -> Prop) (l : list A) :
  (forall a b, R a b -> R' a b) -> StronglySorted R l -> StronglySorted R' l.
Proof.
  intros W. induction 1 as [|x l S IH F]; constructor; [exact IH|].
  eapply Forall_impl; [|exact F]. intros b. apply W.
Qed.

(** X8.  The departure-countries chart shows the countries with the most
    passengers.  With [index] the countries of the filtered rows, each
    once: the chart has min(5, number of countries) rows, no country
    twice, every one a country of the rows, in non-increasing order of
    the country's summed Passengers, and no country left out has more
    passengers than a country shown; the total a pivot row is ranked by
    is its country's summed Passengers. *)
Theorem departure_countries_ranking (fdf : DataFrame) :
  exists index,
    labels_ascending index
    /\ (forall c, In c index <-> In c (map From_Country fdf))
    /\ List.length (top_departure_countries fdf) = Nat.min 5 (List.length index)
    /\ NoDup (map fst (top_departure_countries fdf))
    /\ (forall c, In c (map fst (top_departure_countries fdf)) ->
                  In c (map From_Country fdf))
    /\ StronglySorted (fun a b => country_total b fdf <= country_total a fdf)
         (map fst (top_departure_countries fdf))
    /\ (forall c c',
          In c (map fst (top_departure_countries fdf)) ->
          In c' (map From_Country fdf) ->
          ~ In c' (map fst (top_departure_countries fdf)) ->
          country_total c' fdf <= country_total c fdf)
    /\ (forall row, In row (country_type_pivot fdf) ->
                    row_total row = country_total (fst row) fdf).
Proof.
  destruct (top_departure_countries_closed_form fdf)
    as (index & columns & ranked & Ai & Ci & Ac & Cc & E & Pm & S & T).
  assert (CT : forall c, cells_total columns c fdf = country_total c fdf).
  { intros c. apply pair_totals_sum_to_country.
    - now apply labels_ascending_NoDup.
    - intros t I. now apply Cc. }
  assert (S' : StronglySorted (fun a b => country_total b fdf <= country_total a fdf) ranked).
  { apply (StronglySorted_weaken
             (fun a b => cells_total columns b fdf <= cells_total columns a fdf));
      [|exact S].
    intros a b L. now rewrite <- !CT. }
  rewrite <- (firstn_skipn 5 ranked) in S'.
  destruct (StronglySorted_split _ _ _ S') as [S5 C].
  assert (F : map fst (top_departure_countries fdf) = firstn 5 ranked).
  { rewrite T, map_map. simpl. apply map_id. }
  exists index. split; [exact Ai|]. split; [exact Ci|]. split; [|split; [|split; [|split; [|split]]]].
  - rewrite T, length_map, length_firstn. now rewrite (Permutation_length Pm).
  - rewrite F. apply (head_NoDup 5).
    apply (Permutation_NoDup (Permutation_sym Pm)). now apply labels_ascending_NoDup.
  - intros c I. rewrite F in I. apply Ci. apply (Permutation_in _ Pm).
    exact (head_In 5 ranked c I).
  - rewrite F. exact S5.
  - intros c c' I I' N. rewrite F in I, N. apply C; [exact I|].
    apply Ci in I'. apply (Permutation_in _ (Permutation_sym Pm)) in I'.
    rewrite <- (firstn_skipn 5 ranked) in I'. apply in_app_or in I'.
    destruct I' as [J | J]; [contradiction | exact J].
  - apply pivot_row_total.
Qed.

(** ** The aggregates stay within the selection *)

Lemma idxmax_In {K : Type} (s : list (K * Z)) (k : K) :
  idxmax s = inr k -> In k (map fst s).
Proof.
  destruct s as [|g s]; simpl; [discriminate|].
  intros E. injection E as <-.
  destruct (idxmax_from_first_max s [] [] g) as (v & l1 & l2 & E & _);
    try (intros ? []).
  simpl in E. change (In (idxmax_from g s) (map fst (g :: s))). rewrite E.
  rewrite map_app. apply in_or_app. right. now left.
Qed.

(** X9.  What the aggregates show comes from the selection: every year
    of the yearly trend is a selected year, every type column of the
    departure-countries chart is a selected type, and the Top Origin
    Country is the country of a row of the dataset with a selected year
    and a selected type. *)
Theorem aggregates_within_selection (df : DataFrame) (selected_year : list Z)
    (selected_type : list string) :
  (forall y p, In (y, p) (yearly_passengers (filtered_df df selected_year selected_type)) ->
               In y selected_year)
  /\ (forall c cells t x,
        In (c, cells) (top_departure_countries (filtered_df df selected_year selected_type)) ->
        In (t, x) cells -> In t selected_type)
  /\ (forall c, top_country (filtered_df df selected_year selected_type) = inr c ->
                exists r, In r df /\ From_Country r = c
                          /\ In (Year r) selected_year /\ In (Type_ r) selected_type).
Proof.
  set (fdf := filtered_df df selected_year selected_type).
  assert (Sel : forall r, In r fdf ->
                  In r df /\ In (Year r) selected_year /\ In (Type_ r) selected_type).
  { intros r I. unfold fdf, filtered_df in I. apply filter_In in I.
    destruct I as [I B]. apply andb_true_iff in B.
    rewrite isin_Z_In, isin_str_In in B. tauto. }
  split; [|split].
  - intros y p I.
    destruct (groupby_sum_entry Year Passengers fdf y p I) as [_ J].
    apply in_map_iff in J. destruct J as (r & <- & J). now apply Sel.
  - intros c cells t x I J.
    rewrite top_departure_countries_ranked in I. unfold drop_column in I.
    apply in_map_iff in I. destruct I as ([c' cells'] & E & I). simpl in E.
    injection E as -> <-.
    apply filter_In in J. destruct J as [J _].
    apply head_In in I.
    apply (Permutation_in _ (sort_values_desc_perm row_total _)) in I.
    destruct (country_type_pivot_spec fdf) as (index & columns & E & _ & _ & _ & Ct).
    rewrite E in I. apply in_map_iff in I. destruct I as (c0 & E0 & _).
    injection E0 as -> <-.
    apply in_map_iff in J. destruct J as (t0 & E0 & J). injection E0 as -> <-.
    apply Ct in J. apply in_map_iff in J. destruct J as (r & <- & J). now apply Sel.
  - intros c T. unfold top_country in T. apply idxmax_In in T.
    apply in_map_iff in T. destruct T as ([c' v] & <- & T).
    destruct (groupby_sum_entry From_Country Passengers fdf c' v T) as [_ J].
    apply in_map_iff in J. destruct J as (r & <- & J).
    exists r. destruct (Sel r J) as (A & B & C). now repeat split.
Qed.

(** ** Failing collaborators on the example data *)

Lemma line_chart_failure_ends_run_witness :
  filtered_df sample_df (selected_year (mkSelection None None) sample_df)
    (selected_type (mkSelection None None) sample_df) <> []
  /\ only_fails LineChart draw_error LineChart = Some draw_error
  /\ exists country,
       run (mkSources (inr sample_df) false (inl mongo_down))
         (only_fails LineChart draw_error) (mkSelection None None)
       = (page_head
            ++ [Success "Data loaded from MongoDB";
                SidebarHeader "Filter Options"; Multiselect "Select Year(s)";
                Multiselect "Select Route Type(s)"; Header "Key Metrics";
                Metric "Total Passengers" (IntValue 35);
                Metric "Total Routes" (CountValue 3);
                Metric "Top Origin Country" (TextValue country);
                Header "Flight Routes Data";
                DataTable sample_df;
                Header "Passenger Trends by Year"],
          inl draw_error).
Proof.
  split; [discriminate|]. split; [reflexivity|].
  apply (line_chart_failure_ends_run sample_df false (inl mongo_down)
           (only_fails LineChart draw_error) (mkSelection None None) draw_error);
    [discriminate | reflexivity].
Defined.

Lemma wrapped_blocks_isolate_failures_witness :
  filtered_df sample_df (selected_year (mkSelection None None) sample_df)
    (selected_type (mkSelection None None) sample_df) <> []
  /\ only_fails BarChart draw_error LineChart = None
  /\ only_fails BarChart draw_error RankedTable = None
  /\ exists before rows shown,
       run (mkSources (inr sample_df) false (inl mongo_down))
         (only_fails BarChart draw_error) (mkSelection None None)
       = (before
            ++ [Header "Top 5 Departure Countries by Route Type";
                Error "Error rendering departure countries chart: " (Some draw_error);
                Header "Top 10 Busiest Routes"; Table rows;
                Header "Interactive Flight Routes Map"; shown],
          inr tt)
       /\ ((exists routes, shown = FoliumMap routes)
           \/ (exists e, shown = Error "Error rendering map: " (Some e))).
Proof.
  split; [discriminate|]. split; [reflexivity|]. split; [reflexivity|].
  apply (wrapped_blocks_isolate_failures sample_df false (inl mongo_down)
           (only_fails BarChart draw_error) (mkSelection None None));
    [discriminate | reflexivity | reflexivity].
Defined.

(** ** A run in which nothing fails *)

(** X13.  When every collaborator draws and the largest Passengers of
    the top routes is not zero, the run completes and the page holds, in
    order, the three metrics, the data table of the filtered rows, the
    yearly trend, the departure-countries chart, the ranked table and
    the map, and no error message. *)
Theorem run_shows_all_blocks (df : DataFrame) (b : bool) (c : exn + DataFrame)
    (ext : Collaborators) (sel : Selection) (m : Z) :
  (forall v, ext v = None) ->
  py_max (map snd (top_routes (selected_rows sel df))) = inr m -> m <> 0 ->
  exists country,
    top_country (selected_rows sel df) = inr country
    /\ run (mkSources (inr df) b c) ext sel
       = (page_head
            ++ [Success "Data loaded from MongoDB";
                SidebarHeader "Filter Options"; Multiselect "Select Year(s)";
                Multiselect "Select Route Type(s)"; Header "Key Metrics";
                Metric "Total Passengers"
                  (IntValue (total_passengers (selected_rows sel df)));
                Metric "Total Routes" (CountValue (total_routes (selected_rows sel df)));
                Metric "Top Origin Country" (TextValue country);
                Header "Flight Routes Data";
                DataTable (selected_rows sel df);
                Header "Passenger Trends by Year";
                LinePlot (yearly_passengers (selected_rows sel df));
                Header "Top 5 Departure Countries by Route Type";
                BarPlot (top_departure_countries (selected_rows sel df));
                Header "Top 10 Busiest Routes";
                Table (ranked_rows (selected_rows sel df));
                Header "Interactive Flight Routes Map";
                FoliumMap (map (drawn_route m) (top_routes (selected_rows sel df)))],
          inr tt)
    /\ error_count (fst (run (mkSources (inr df) b c) ext sel)) = 0%nat.
Proof.
  intros D E N.
  assert (NE : selected_rows sel df <> []).
  { intros Z0. rewrite Z0 in E. discriminate. }
  destruct (top_country_nonempty _ NE) as [country T]. exists country.
  split; [exact T|].
  assert (R : run (mkSources (inr df) b c) ext sel
              = (page_head
                   ++ [Success "Data loaded from MongoDB";
                       SidebarHeader "Filter Options"; Multiselect "Select Year(s)";
                       Multiselect "Select Route Type(s)"; Header "Key Metrics";
                       Metric "Total Passengers"
                         (IntValue (total_passengers (selected_rows sel df)));
                       Metric "Total Routes"
                         (CountValue (total_routes (selected_rows sel df)));
                       Metric "Top Origin Country" (TextValue country);
                       Header "Flight Routes Data";
                       DataTable (selected_rows sel df);
                       Header "Passenger Trends by Year";
                       LinePlot (yearly_passengers (selected_rows sel df));
                       Header "Top 5 Departure Countries by Route Type";
                       BarPlot (top_departure_countries (selected_rows sel df));
                       Header "Top 10 Busiest Routes";
                       Table (ranked_rows (selected_rows sel df));
                       Header "Interactive Flight Routes Map";
                       FoliumMap (map (drawn_route m) (top_routes (selected_rows sel df)))],
                 inr tt)).
  { rewrite run_loaded. unfold dashboard.
    fold (selected_rows sel df).
    unfold bind at 1. unfold emit at 1.
    unfold bind at 1. unfold emit at 1.
    unfold bind at 1. unfold emit at 1.
    unfold bind at 1. rewrite (key_metrics_shown _ country _ T).
    unfold bind at 1. rewrite data_table_shown.
    unfold bind at 1. rewrite passenger_trends_outcome, (D LineChart).
    unfold bind at 1. rewrite departure_countries_outcome, (D BarChart).
    unfold bind at 1.
    unfold busiest_routes, draw. rewrite (D RankedTable).
    unfold bind at 1, emit at 1. unfold bind at 1, ret at 1. unfold emit at 1.
    fold (ranked_rows (selected_rows sel df)).
    rewrite (route_map_drawn_block ext (selected_rows sel df) m _ E N (D RouteMap)).
    rewrite <- !app_assoc. reflexivity. }
  split; [exact R|].
  rewrite R. reflexivity.
Qed.

Lemma run_shows_all_blocks_witness :
  (forall v, all_drawn v = None)
  /\ py_max (map snd (top_routes (selected_rows (mkSelection None None) sample_df)))
     = inr 20
  /\ 20 <> 0
  /\ exists country,
       top_country (selected_rows (mkSelection None None) sample_df) = inr country
       /\ run (mkSources (inr sample_df) false (inl mongo_down)) all_drawn
            (mkSelection None None)
          = (page_head
               ++ [Success "Data loaded from MongoDB";
                   SidebarHeader "Filter Options"; Multiselect "Select Year(s)";
                   Multiselect "Select Route Type(s)"; Header "Key Metrics";
                   Metric "Total Passengers" (IntValue 35);
                   Metric "Total Routes" (CountValue 3);
                   Metric "Top Origin Country" (TextValue country);
                   Header "Flight Routes Data";
                   DataTable sample_df;
                   Header "Passenger Trends by Year";
                   LinePlot [(2020, 30); (2021, 5)];
                   Header "Top 5 Departure Countries by Route Type";
                   BarPlot (top_departure_countries sample_df);
                   Header "Top 10 Busiest Routes";
                   Table [("Tokyo-Sapporo", 20); ("Seoul-Jeju", 10); ("Dubai-London", 5)];
                   Header "Interactive Flight Routes Map";
                   FoliumMap (map (drawn_route 20) (top_routes sample_df))],
             inr tt)
       /\ error_count
            (fst (run (mkSources (inr sample_df) false (inl mongo_down)) all_drawn
                    (mkSelection None None)))
          = 0%nat.
Proof.
  split; [reflexivity|]. split; [reflexivity|]. split; [discriminate|].
  apply (run_shows_all_blocks sample_df false (inl mongo_down) all_drawn
           (mkSelection None None) 20);
    [reflexivity | reflexivity | discriminate].
Defined.
